(** * AcademiaFlow: the manuscript review workflow and its notifications

    A shallow embedding of the workflow handlers of the server
    (manuscript and notification controllers, over the mongoose models
    [User], [Manuscript], [Review] and [Notification]) and the properties
    of the review state machine proved about them.

    Conventions of the embedding:
    - a collection with unique [_id]s that is looked up by id ([User],
      [Manuscript]) is a [gmap] from ids to documents; a collection that
      is only appended to, filtered and counted ([Review],
      [Notification]) is a list in insertion order;
    - an [ObjectId] is a natural number: only equality of ids is used by
      the handlers; ids that do not parse as ObjectIds are outside the
      model;
    - a string is a sequence of bytes: its length is the one JavaScript
      computes on ASCII text;
    - a handler is a function of the request's fields in the [Async]
      monad: it reads and writes the [Store], appends every write to a
      log of [Event]s in the order the writes are awaited, and either
      fulfils with the [Response] it sent or rejects with the error that
      [catchAsync] hands to the error middleware;
    - the [createdAt]/[updatedAt] timestamps of the documents are left
      out, and so are the [populate] joins, except where a handler goes
      on to use the populated reference ([makeDecision]). *)

From stdpp Require Import gmap strings list fin_maps sorting.

Abbreviation ObjectId := nat.

(** ** Strings of the handlers *)

Definition dquote : string := String (Ascii.ascii_of_nat 34) EmptyString.

(** JavaScript truthiness of a request field: [undefined] and the empty
    string are falsy. *)
Definition truthy (v : option string) : bool :=
  match v with
  | Some s => negb (String.length s =? 0)
  | None => false
  end.

(** [a || b] on strings. *)
Definition orElse (v : option string) (d : string) : string :=
  if truthy v then default d v else d.

Definition isWhiteSpace (a : Ascii.ascii) : bool :=
  match Ascii.nat_of_ascii a with
  | 9 | 10 | 11 | 12 | 13 | 32 => true
  | _ => false
  end.

Fixpoint trimStart (s : string) : string :=
  match s with
  | EmptyString => EmptyString
  | String a s' => if isWhiteSpace a then trimStart s' else s
  end.

(** The [trim: true] setter of a schema path (ASCII white space). *)
Definition trim (s : string) : string :=
  String.rev (trimStart (String.rev (trimStart s))).

(** ** Models *)

(** userModel.ts *)
Inductive UserRole := ADMIN | AUTHOR | REVIEWER | EDITOR.

Record IUser := {
  fullname : string;
  role : UserRole;
  isActive : bool
}.

(** manuscriptModel.ts *)
Inductive ManuscriptStatus :=
  SUBMITTED | UNDER_REVIEW | DECISION_READY | ACCEPTED | REJECTED.

Record IManuscript := {
  title : string;
  abstract : string;
  keywords : string;
  authors : string;
  submittedBy : ObjectId;
  assignedReviewers : list ObjectId;
  status : ManuscriptStatus;
  fileName : string;
  fileUrl : option string
}.

(** reviewModel.ts *)
Inductive ReviewRecommendation :=
  ACCEPT | MINOR_REVISION | MAJOR_REVISION | REJECT.

Record IReview := {
  manuscriptId : ObjectId;
  reviewerId : ObjectId;
  recommendation : ReviewRecommendation;
  comments : string;
  strengths : string;
  weaknesses : string;
  suggestions : string
}.

(** notificationModel.ts *)
Record INotification := {
  userId : ObjectId;
  message : string;
  isRead : bool
}.

#[global] Instance UserRole_eq_dec : EqDecision UserRole.
Proof. solve_decision. Defined.
#[global] Instance ManuscriptStatus_eq_dec : EqDecision ManuscriptStatus.
Proof. solve_decision. Defined.
#[global] Instance ReviewRecommendation_eq_dec : EqDecision ReviewRecommendation.
Proof. solve_decision. Defined.

(** [Object.values(ManuscriptStatus).includes(status)], returning the
    member found. *)
Definition parseManuscriptStatus (s : string) : option ManuscriptStatus :=
  if bool_decide (s = "SUBMITTED") then Some SUBMITTED
  else if bool_decide (s = "UNDER_REVIEW") then Some UNDER_REVIEW
  else if bool_decide (s = "DECISION_READY") then Some DECISION_READY
  else if bool_decide (s = "ACCEPTED") then Some ACCEPTED
  else if bool_decide (s = "REJECTED") then Some REJECTED
  else None.

(** The [enum] validator of [Review.recommendation]. *)
Definition parseReviewRecommendation (s : string) : option ReviewRecommendation :=
  if bool_decide (s = "ACCEPT") then Some ACCEPT
  else if bool_decide (s = "MINOR_REVISION") then Some MINOR_REVISION
  else if bool_decide (s = "MAJOR_REVISION") then Some MAJOR_REVISION
  else if bool_decide (s = "REJECT") then Some REJECT
  else None.

(** Assignments to fields of a loaded manuscript document. *)
Definition set_status (st : ManuscriptStatus) (m : IManuscript) : IManuscript :=
  {| title := title m; abstract := abstract m; keywords := keywords m;
     authors := authors m; submittedBy := submittedBy m;
     assignedReviewers := assignedReviewers m; status := st;
     fileName := fileName m; fileUrl := fileUrl m |}.

Definition set_assignedReviewers (rs : list ObjectId) (m : IManuscript) : IManuscript :=
  {| title := title m; abstract := abstract m; keywords := keywords m;
     authors := authors m; submittedBy := submittedBy m;
     assignedReviewers := rs; status := status m;
     fileName := fileName m; fileUrl := fileUrl m |}.

Definition markRead (n : INotification) : INotification :=
  {| userId := userId n; message := message n; isRead := true |}.

(** ** The store and the write log *)

Record Store := {
  users : gmap ObjectId IUser;
  manuscripts : gmap ObjectId IManuscript;
  reviews : list IReview;
  notifications : list INotification
}.

Definition with_manuscripts (ms : gmap ObjectId IManuscript) (s : Store) : Store :=
  {| users := users s; manuscripts := ms; reviews := reviews s;
     notifications := notifications s |}.

Definition with_reviews (rs : list IReview) (s : Store) : Store :=
  {| users := users s; manuscripts := manuscripts s; reviews := rs;
     notifications := notifications s |}.

Definition with_notifications (ns : list INotification) (s : Store) : Store :=
  {| users := users s; manuscripts := manuscripts s; reviews := reviews s;
     notifications := ns |}.

(** One entry per completed write, in the order the handler awaits them. *)
Inductive Event :=
  | ManuscriptCreated (id : ObjectId)
  | ManuscriptSaved (id : ObjectId) (st : ManuscriptStatus)
  | ManuscriptUpdated (id : ObjectId) (st : ManuscriptStatus)
  | ReviewCreated (manuscript reviewer : ObjectId)
  | NotificationCreated (user : ObjectId) (msg : string)
  | NotificationsMarkedRead (user : ObjectId).

(** A mongoose validation failure, naming the model and the path. *)
Inductive MongooseError :=
  | ValidationFailed (model path : string).

Inductive Outcome (A : Type) :=
  | Fulfilled (a : A)
  | Rejected (e : MongooseError).
Arguments Fulfilled {A} a.
Arguments Rejected {A} e.

(** An awaited computation: the writes done before a rejection stay in
    the store (there is no transaction). *)
Definition Async (A : Type) : Type := Store → Outcome A * Store * list Event.

Definition ret {A} (a : A) : Async A := λ s, (Fulfilled a, s, []).

Definition throw {A} (e : MongooseError) : Async A := λ s, (Rejected e, s, []).

Definition bind {A B} (m : Async A) (f : A → Async B) : Async B :=
  λ s,
    match m s with
    | (Fulfilled a, s1, t1) =>
        match f a s1 with
        | (o, s2, t2) => (o, s2, t1 ++ t2)
        end
    | (Rejected e, s1, t1) => (Rejected e, s1, t1)
    end.

(** [x ← m; k] reads [const x = await m; k], and [m;; k] reads [await m; k]. *)
#[global] Instance Async_ret : MRet Async := @ret.
#[global] Instance Async_bind : MBind Async := λ A B f m, bind m f.

(** [Promise.all(ps)]: every promise of the array has been started, so
    each one takes effect whether or not another one rejects; the result
    rejects with the first rejection.  The writes of the promises are
    logged in array order, one linearisation of their concurrent
    execution. *)
Fixpoint promiseAll {A} (ps : list (Async A)) : Async (list A) :=
  match ps with
  | [] => ret []
  | p :: ps' =>
      λ s,
        match p s with
        | (o, s1, t1) =>
            match promiseAll ps' s1 with
            | (os, s2, t2) =>
                (match o, os with
                 | Fulfilled a, Fulfilled l => Fulfilled (a :: l)
                 | Rejected e, _ => Rejected e
                 | Fulfilled _, Rejected e => Rejected e
                 end, s2, t1 ++ t2)
            end
        end
  end.

Definition outcome {A} (r : Outcome A * Store * list Event) : Outcome A := r.1.1.
Definition store {A} (r : Outcome A * Store * list Event) : Store := r.1.2.
Definition trace {A} (r : Outcome A * Store * list Event) : list Event := r.2.

(** ** Model operations (mongoose) *)

Definition User_findById (id : option ObjectId) : Async (option IUser) :=
  λ s, (Fulfilled (id ≫= λ i, users s !! i), s, []).

(** [User.find(query)]: the users that match, with their [_id]. *)
Definition User_find (query : ObjectId → IUser → bool) : Async (list (ObjectId * IUser)) :=
  λ s, (Fulfilled (List.filter (λ p, query p.1 p.2) (map_to_list (users s))), s, []).

Definition Manuscript_findById (id : ObjectId) : Async (option IManuscript) :=
  λ s, (Fulfilled (manuscripts s !! id), s, []).

(** [Manuscript.create(doc)]: the [trim] setters run, then the [required]
    validators; the new document gets an unused [_id]. *)
Definition Manuscript_create (doc : IManuscript) : Async (ObjectId * IManuscript) :=
  λ s,
    let d :=
      {| title := trim (title doc); abstract := trim (abstract doc);
         keywords := trim (keywords doc); authors := trim (authors doc);
         submittedBy := submittedBy doc;
         assignedReviewers := assignedReviewers doc; status := status doc;
         fileName := fileName doc; fileUrl := fileUrl doc |} in
    if String.length (title d) =? 0 then throw (ValidationFailed "Manuscript" "title") s
    else if String.length (abstract d) =? 0 then throw (ValidationFailed "Manuscript" "abstract") s
    else if String.length (keywords d) =? 0 then throw (ValidationFailed "Manuscript" "keywords") s
    else if String.length (authors d) =? 0 then throw (ValidationFailed "Manuscript" "authors") s
    else if String.length (fileName d) =? 0 then throw (ValidationFailed "Manuscript" "fileName") s
    else
      let id := fresh (dom (manuscripts s)) in
      (Fulfilled (id, d), with_manuscripts (<[id := d]> (manuscripts s)) s,
       [ManuscriptCreated id]).

(** [manuscript.save()] on a document loaded with [findById]: the
    assigned paths are written to the stored document.  Nothing else
    runs between the load and the save, so the result is the loaded
    document with its assigned fields. *)
Definition Manuscript_save (id : ObjectId) (doc : IManuscript) : Async unit :=
  λ s, (Fulfilled (), with_manuscripts (<[id := doc]> (manuscripts s)) s,
        [ManuscriptSaved id (status doc)]).

(** [Manuscript.findByIdAndUpdate(id, {status}, {new: true})]. *)
Definition Manuscript_findByIdAndUpdate (id : ObjectId) (st : ManuscriptStatus)
  : Async (option IManuscript) :=
  λ s,
    match manuscripts s !! id with
    | None => (Fulfilled None, s, [])
    | Some m =>
        let m' := set_status st m in
        (Fulfilled (Some m'), with_manuscripts (<[id := m']> (manuscripts s)) s,
         [ManuscriptUpdated id st])
    end.

(** [.populate('submittedBy', ...)] on a loaded manuscript: the reference
    becomes the user's document, which still stands for the same id, or
    [null] when no such user exists. *)
Definition populate (ref : ObjectId) : Async (option ObjectId) :=
  λ s, (Fulfilled (match users s !! ref with Some _ => Some ref | None => None end),
        s, []).

Definition forManuscript (id : ObjectId) (r : IReview) : bool :=
  bool_decide (manuscriptId r = id).

Definition Review_findOne (manuscript reviewer : ObjectId) : Async (option IReview) :=
  λ s, (Fulfilled (List.find (λ r, forManuscript manuscript r
                                   && bool_decide (reviewerId r = reviewer))
                             (reviews s)), s, []).

Definition Review_countDocuments (manuscript : ObjectId) : Async nat :=
  λ s, (Fulfilled (length (List.filter (forManuscript manuscript) (reviews s))), s, []).

(** [Review.create(doc)]: [recommendation] is required and must be a
    member of the enum, [comments] is required. *)
Definition Review_create (manuscript reviewer : ObjectId)
    (recommendation' comments' : option string)
    (strengths' weaknesses' suggestions' : string) : Async IReview :=
  λ s,
    match recommendation' ≫= parseReviewRecommendation with
    | None => throw (ValidationFailed "Review" "recommendation") s
    | Some rec =>
        if truthy comments' then
          let r :=
            {| manuscriptId := manuscript; reviewerId := reviewer;
               recommendation := rec; comments := default EmptyString comments';
               strengths := strengths'; weaknesses := weaknesses';
               suggestions := suggestions' |} in
          (Fulfilled r, with_reviews (reviews s ++ [r]) s,
           [ReviewCreated manuscript reviewer])
        else throw (ValidationFailed "Review" "comments") s
    end.

(** [Notification.create({userId, message})]: the message is trimmed,
    is required and has at most 500 characters. *)
Definition Notification_create (user : ObjectId) (msg : string) : Async INotification :=
  λ s,
    let m := trim msg in
    if (String.length m =? 0) || (500 <? String.length m)
    then throw (ValidationFailed "Notification" "message") s
    else
      let n := {| userId := user; message := m; isRead := false |} in
      (Fulfilled n, with_notifications (notifications s ++ [n]) s,
       [NotificationCreated user m]).

Definition isUnreadOf (user : ObjectId) (n : INotification) : bool :=
  bool_decide (userId n = user) && negb (isRead n).

(** [Notification.updateMany({userId, isRead: false}, {isRead: true})],
    returning [modifiedCount]. *)
Definition Notification_updateMany (user : ObjectId) : Async nat :=
  λ s,
    (Fulfilled (length (List.filter (isUnreadOf user) (notifications s))),
     with_notifications
       (map (λ n, if isUnreadOf user n then markRead n else n) (notifications s)) s,
     [NotificationsMarkedRead user]).

(** ** Responses *)

Inductive Payload :=
  | NoData
  | ManuscriptData (id : ObjectId) (m : option IManuscript)
  | ReviewData (r : IReview) (manuscriptStatus : ManuscriptStatus)
  | ModifiedCount (n : nat).

(** [res.status(statusCode).json({success, message, data})]. *)
Record Response := {
  statusCode : nat;
  success : bool;
  responseMessage : string;
  data : Payload
}.

Definition failure (code : nat) (msg : string) : Response :=
  {| statusCode := code; success := false; responseMessage := msg; data := NoData |}.

Definition succeeded (code : nat) (msg : string) (d : Payload) : Response :=
  {| statusCode := code; success := true; responseMessage := msg; data := d |}.

Definition isAdminOrEditor (_ : ObjectId) (u : IUser) : bool :=
  bool_decide (role u = ADMIN) || bool_decide (role u = EDITOR).

Definition isAdmin (_ : ObjectId) (u : IUser) : bool :=
  bool_decide (role u = ADMIN).

Definition isActiveReviewerIn (ids : list ObjectId) (i : ObjectId) (u : IUser) : bool :=
  bool_decide (i ∈ ids) && bool_decide (role u = REVIEWER) && isActive u.

(** [Promise.all(users.map(user => Notification.create({userId, message})))]. *)
Definition notifyAll (ids : list ObjectId) (msg : string) : Async (list INotification) :=
  promiseAll (map (λ i, Notification_create i msg) ids).

(** ** Notification controller *)

(** [PATCH /api/notifications/read-all], for the user the [protect]
    middleware put on the request. *)
Definition markAllAsRead (userId' : ObjectId) : Async Response :=
  modifiedCount ← Notification_updateMany userId';
  ret (succeeded 200 "All notifications marked as read" (ModifiedCount modifiedCount)).

(** ** Manuscript controller *)

Record UploadedFile := {
  originalname : string;
  filename : string
}.

(** [POST /api/manuscripts/submit] *)
Definition submitManuscript (file : option UploadedFile)
    (title' abstract' keywords' authors' : option string)
    (user : option ObjectId) : Async Response :=
  match file with
  | None => ret (failure 400 "Please upload a manuscript file (PDF or DOCX)")
  | Some file =>
      if negb (truthy title') || negb (truthy abstract') || negb (truthy keywords')
         || negb (truthy authors')
      then ret (failure 400
        "Please provide all required fields: title, abstract, keywords, and authors")
      else
        match user with
        | None => ret (failure 401 "User not authenticated")
        | Some userId' =>
            let title0 := default EmptyString title' in
            created ← Manuscript_create
              {| title := title0;
                 abstract := default EmptyString abstract';
                 keywords := default EmptyString keywords';
                 authors := default EmptyString authors';
                 submittedBy := userId';
                 assignedReviewers := [];
                 status := SUBMITTED;
                 fileName := originalname file;
                 fileUrl := Some ("/uploads/manuscripts/" +:+ filename file) |};
            author ← User_findById (Some userId');
            let authorName := orElse (fullname <$> author) "An author" in
            Notification_create userId'
              ("Your manuscript " +:+ dquote +:+ title0 +:+ dquote
               +:+ " has been submitted successfully and is awaiting review.");;
            adminsAndEditors ← User_find isAdminOrEditor;
            notifyAll adminsAndEditors.*1
              ("New manuscript submission: " +:+ dquote +:+ title0 +:+ dquote
               +:+ " by " +:+ authorName);;
            ret (succeeded 201 "Manuscript submitted successfully"
                   (ManuscriptData created.1 (Some created.2)))
        end
  end.

(** [PUT /api/manuscripts/:id/assign-reviewers]; [reviewerIds'] is [None]
    when the body has no array under [reviewerIds]. *)
Definition assignReviewers (id : ObjectId) (reviewerIds' : option (list ObjectId))
    (user : option ObjectId) : Async Response :=
  match reviewerIds' with
  | None | Some [] => ret (failure 400 "Please provide an array of reviewer IDs")
  | Some reviewerIds =>
      found ← Manuscript_findById id;
      match found with
      | None => ret (failure 404 "Manuscript not found")
      | Some manuscript =>
          reviewers ← User_find (isActiveReviewerIn reviewerIds);
          if negb (length reviewers =? length reviewerIds)
          then ret (failure 400
            "One or more invalid reviewer IDs or reviewers are not active")
          else
            let manuscript :=
              set_status UNDER_REVIEW (set_assignedReviewers reviewerIds manuscript) in
            Manuscript_save id manuscript;;
            updatedManuscript ← Manuscript_findById id;
            editor ← User_findById user;
            let editorName := orElse (fullname <$> editor) "An editor" in
            author ← User_findById (Some (submittedBy manuscript));
            let authorName := orElse (fullname <$> author) "Unknown author" in
            Notification_create (submittedBy manuscript)
              ("Your manuscript " +:+ dquote +:+ title manuscript +:+ dquote
               +:+ " has been assigned to reviewers and is now under review.");;
            notifyAll reviewerIds
              ("You have been assigned to review the manuscript " +:+ dquote
               +:+ title manuscript +:+ dquote +:+ " by " +:+ authorName +:+ ".");;
            adminsAndEditors ← User_find isAdminOrEditor;
            notifyAll adminsAndEditors.*1
              (editorName +:+ " assigned reviewers to manuscript " +:+ dquote
               +:+ title manuscript +:+ dquote +:+ " by " +:+ authorName +:+ ".");;
            ret (succeeded 200 "Reviewers assigned successfully"
                   (ManuscriptData id updatedManuscript))
      end
  end.

(** [PUT /api/manuscripts/:id/status] *)
Definition updateManuscriptStatus (id : ObjectId) (status' : option string)
  : Async Response :=
  match (if truthy status' then status' ≫= parseManuscriptStatus else None) with
  | None => ret (failure 400 "Please provide a valid status")
  | Some st =>
      updated ← Manuscript_findByIdAndUpdate id st;
      match updated with
      | None => ret (failure 404 "Manuscript not found")
      | Some manuscript =>
          ret (succeeded 200 "Manuscript status updated successfully"
                 (ManuscriptData id (Some manuscript)))
      end
  end.

(** [POST /api/manuscripts/:id/submit-review] *)
Definition submitReview (id : ObjectId) (user : option ObjectId)
    (recommendation' comments' strengths' weaknesses' suggestions' : option string)
  : Async Response :=
  match user with
  | None => ret (failure 401 "User not authenticated")
  | Some userId' =>
      found ← Manuscript_findById id;
      match found with
      | None => ret (failure 404 "Manuscript not found")
      | Some manuscript =>
          let isAssigned :=
            existsb (λ reviewerId', bool_decide (reviewerId' = userId'))
                    (assignedReviewers manuscript) in
          if negb isAssigned
          then ret (failure 403 "You are not assigned to review this manuscript")
          else
            existingReview ← Review_findOne id userId';
            match existingReview with
            | Some _ =>
                ret (failure 400
                  "You have already submitted a review for this manuscript")
            | None =>
                review ← Review_create id userId' recommendation' comments'
                  (orElse strengths' EmptyString) (orElse weaknesses' EmptyString)
                  (orElse suggestions' EmptyString);
                reviewer ← User_findById (Some userId');
                let reviewerName := orElse (fullname <$> reviewer) "A reviewer" in
                author ← User_findById (Some (submittedBy manuscript));
                let authorName := orElse (fullname <$> author) "Unknown author" in
                Notification_create (submittedBy manuscript)
                  ("A review has been submitted for your manuscript " +:+ dquote
                   +:+ title manuscript +:+ dquote +:+ ".");;
                adminsAndEditors ← User_find isAdminOrEditor;
                notifyAll adminsAndEditors.*1
                  (reviewerName +:+ " submitted a review for manuscript " +:+ dquote
                   +:+ title manuscript +:+ dquote +:+ " by " +:+ authorName +:+ ".");;
                totalReviews ← Review_countDocuments id;
                let totalAssignedReviewers := length (assignedReviewers manuscript) in
                if totalAssignedReviewers <=? totalReviews then
                  let manuscript := set_status DECISION_READY manuscript in
                  Manuscript_save id manuscript;;
                  ret (succeeded 201 "Review submitted successfully"
                         (ReviewData review (status manuscript)))
                else if bool_decide (status manuscript = SUBMITTED) then
                  let manuscript := set_status UNDER_REVIEW manuscript in
                  Manuscript_save id manuscript;;
                  ret (succeeded 201 "Review submitted successfully"
                         (ReviewData review (status manuscript)))
                else
                  ret (succeeded 201 "Review submitted successfully"
                         (ReviewData review (status manuscript)))
            end
      end
  end.

(** [PUT /api/manuscripts/:id/decision] *)
Definition makeDecision (id : ObjectId) (decision : option string)
    (user : option ObjectId) : Async Response :=
  if negb (truthy decision)
     || negb (bool_decide (decision = Some "ACCEPTED")
              || bool_decide (decision = Some "REJECTED"))
  then ret (failure 400 "Please provide a valid decision (ACCEPTED or REJECTED)")
  else
    found ← Manuscript_findById id;
    match found with
    | None => ret (failure 404 "Manuscript not found")
    | Some manuscript =>
        submittedBy' ← populate (submittedBy manuscript);
        if negb (bool_decide (status manuscript = DECISION_READY))
        then ret (failure 400
          "Manuscript must be in DECISION_READY status before making a decision")
        else
          let manuscript :=
            set_status (if bool_decide (decision = Some "ACCEPTED")
                        then ACCEPTED else REJECTED) manuscript in
          Manuscript_save id manuscript;;
          editor ← User_findById user;
          let editorName := orElse (fullname <$> editor) "An editor" in
          author ← User_findById submittedBy';
          let authorName := orElse (fullname <$> author) "Unknown author" in
          let decisionText :=
            if bool_decide (decision = Some "ACCEPTED") then "accepted" else "rejected" in
          match submittedBy' with
          | Some author' =>
              Notification_create author'
                ("Your manuscript " +:+ dquote +:+ title manuscript +:+ dquote
                 +:+ " has been " +:+ decisionText +:+ ".")
          | None => throw (ValidationFailed "Notification" "userId")
          end;;
          admins ← User_find isAdmin;
          notifyAll admins.*1
            (editorName +:+ " " +:+ decisionText +:+ " the manuscript " +:+ dquote
             +:+ title manuscript +:+ dquote +:+ " by " +:+ authorName +:+ ".");;
          ret (succeeded 200
                 ("Manuscript " +:+ decisionText +:+ " successfully")
                 (ManuscriptData id (Some manuscript)))
    end.

(** * Vocabulary of the properties *)

(** Unfolds the monad of a handler whose model operations have been
    unfolded, leaving the triple it computes. *)
Ltac async_unfold :=
  unfold store, outcome, trace, mbind, Async_bind, bind, ret, throw in *;
  cbn [app fst snd] in *.

Ltac async_simpl H :=
  cbn [app fst snd users manuscripts reviews notifications
       with_manuscripts with_reviews with_notifications] in H.

(** ** Reading a run *)


(** The status stored for a manuscript, if it exists. *)
Definition statusOf (s : Store) (id : ObjectId) : option ManuscriptStatus :=
  status <$> manuscripts s !! id.






(** ** Notifications: validity of a message and the documents created *)

Definition validMessage (msg : string) : bool :=
  negb ((String.length (trim msg) =? 0) || (500 <? String.length (trim msg))).

Definition notification (user : ObjectId) (msg : string) : INotification :=
  {| userId := user; message := trim msg; isRead := false |}.


Definition validDecision (decision : option string) : Prop :=
  decision = Some "ACCEPTED" ∨ decision = Some "REJECTED".

(** The user directory's view of an id: an active user with role REVIEWER. *)
Definition activeReviewer (s : Store) (i : ObjectId) : Prop :=
  ∃ u, users s !! i = Some u ∧ role u = REVIEWER ∧ isActive u = true.

Definition adminOrEditor (s : Store) (i : ObjectId) : Prop :=
  ∃ u, users s !! i = Some u ∧ (role u = ADMIN ∨ role u = EDITOR).

Definition reviewed (s : Store) (manuscript reviewer : ObjectId) : Prop :=
  ∃ r, r ∈ reviews s ∧ manuscriptId r = manuscript ∧ reviewerId r = reviewer.

Definition reviewCount (s : Store) (manuscript : ObjectId) : nat :=
  length (List.filter (forManuscript manuscript) (reviews s)).

(** The write a notification document was created by. *)
Definition notificationEvent (n : INotification) : Event :=
  NotificationCreated (userId n) (message n).

(** The ids [User.find] returns for the ADMIN and EDITOR users. *)
Definition adminsAndEditorsOf (s : Store) : list ObjectId :=
  (List.filter (λ p : ObjectId * IUser, isAdminOrEditor p.1 p.2) (map_to_list (users s))).*1.

Definition adminsOf (s : Store) : list ObjectId :=
  (List.filter (λ p : ObjectId * IUser, isAdmin p.1 p.2) (map_to_list (users s))).*1.

(** The status write that ends [submitReview], as a function of the
    loaded manuscript and the review count: [None] when no branch of the
    handler assigns the status. *)
Definition escalate (m : IManuscript) (totalReviews : nat) : option IManuscript :=
  if length (assignedReviewers m) <=? totalReviews
  then Some (set_status DECISION_READY m)
  else if bool_decide (status m = SUBMITTED)
       then Some (set_status UNDER_REVIEW m)
       else None.

(** The status a valid decision stands for. *)
Definition decided (decision : option string) : ManuscriptStatus :=
  if bool_decide (decision = Some "ACCEPTED") then ACCEPTED else REJECTED.

(** ** A run of the workflow

    One author, one editor, two reviewers and one admin; the author
    submits a manuscript, the editor assigns both reviewers, the reviewers
    report one after the other and the editor accepts. *)
Module Scenario.

Definition member (name : string) (r : UserRole) : IUser :=
  {| fullname := name; role := r; isActive := true |}.

Definition directory : Store :=
  {| users := list_to_map
       [(1, member "Ann" AUTHOR); (2, member "Ed" EDITOR);
        (3, member "Rex" REVIEWER); (4, member "Ria" REVIEWER);
        (5, member "Ada" ADMIN)];
     manuscripts := ∅; reviews := []; notifications := [] |}.

Definition upload : UploadedFile :=
  {| originalname := "paper.pdf"; filename := "1700000000-paper.pdf" |}.

(** The manuscript gets id 0. *)
Definition submitted : Store :=
  store (submitManuscript (Some upload) (Some "Traces") (Some "On write logs")
           (Some "logs") (Some "Ann") (Some 1) directory).

Definition assigned : Store :=
  store (assignReviewers 0 (Some [3; 4]) (Some 2) submitted).

Definition firstReview : Store :=
  store (submitReview 0 (Some 3) (Some "ACCEPT") (Some "Sound") None None None assigned).

Definition secondReview : Store :=
  store (submitReview 0 (Some 4) (Some "MINOR_REVISION") (Some "Typos") None None None
           firstReview).

Definition accepted : Store :=
  store (makeDecision 0 (Some "ACCEPTED") (Some 2) secondReview).

(** After the first review the editor replaces the reviewers by [4]. *)
Definition reassigned : Store :=
  store (assignReviewers 0 (Some [4]) (Some 2) firstReview).

End Scenario.

(** * The rest of the controllers

    The handlers below read the same store.  Those that only read, or
    whose writes are notifications, are in [Async]; the two kinds of write
    the log has no entry for (deleting notifications, saving a user) are
    plain functions from the store to the answer and the new store. *)

(** [res.status(replyCode).json({success, message, data})]; some answers
    carry no message. *)
Record Reply (A : Type) := {
  replyCode : nat;
  replySuccess : bool;
  replyMessage : option string;
  replyData : option A
}.
Arguments replyCode {A} _.
Arguments replySuccess {A} _.
Arguments replyMessage {A} _.
Arguments replyData {A} _.

Definition refusal {A} (code : nat) (msg : string) : Reply A :=
  {| replyCode := code; replySuccess := false; replyMessage := Some msg;
     replyData := None |}.

Definition answer {A} (code : nat) (msg : option string) (d : A) : Reply A :=
  {| replyCode := code; replySuccess := true; replyMessage := msg;
     replyData := Some d |}.

(** ** Notification controller, continued *)

Definition ofUser (user : ObjectId) (n : INotification) : bool :=
  bool_decide (userId n = user).

(** The filter [{userId}] with [isRead: false] added when [unreadOnly]. *)
Definition notificationQuery (user : ObjectId) (unreadOnly : bool)
    (n : INotification) : bool :=
  ofUser user n && (if unreadOnly then negb (isRead n) else true).

(** [Notification.find(query).sort({createdAt: -1}).limit(limit).skip(skip)]:
    the matching documents, last created first, without the first [skip]
    of them and at most [limit] long. *)
Definition Notification_find (query : INotification → bool) (limit skip : nat)
  : Async (list INotification) :=
  λ s, (Fulfilled (take limit (drop skip (reverse (List.filter query (notifications s))))),
        s, []).

Definition Notification_countDocuments (query : INotification → bool) : Async nat :=
  λ s, (Fulfilled (length (List.filter query (notifications s))), s, []).

(** The [data] of [getNotifications]: [notifications], [total] and
    [unreadCount]. *)
Record NotificationList := {
  listed : list INotification;
  total : nat;
  unreadCount : nat
}.

(** [GET /api/notifications].  [limit'] and [skip'] are what [parseInt]
    makes of the query parameters, [None] standing for [NaN]; negative
    numbers are outside the model. *)
Definition getNotifications (userId' : ObjectId) (limit' skip' : option nat)
    (unreadOnly' : option string) : Async (Reply NotificationList) :=
  let limit := match limit' with Some (S n) => S n | _ => 50 end in
  let skip := default 0 skip' in
  let unreadOnly := bool_decide (unreadOnly' = Some "true") in
  let query := notificationQuery userId' unreadOnly in
  found ← Notification_find query limit skip;
  total' ← Notification_countDocuments query;
  unreadCount' ← Notification_countDocuments (notificationQuery userId' true);
  ret (answer 200 None
         {| listed := found; total := total'; unreadCount := unreadCount' |}).


(** [Notification.deleteMany({userId})], returning [deletedCount]. *)
Definition Notification_deleteMany (user : ObjectId) (s : Store) : nat * Store :=
  (length (List.filter (ofUser user) (notifications s)),
   with_notifications (List.filter (λ n, negb (ofUser user n)) (notifications s)) s).

(** [DELETE /api/notifications/all] *)
Definition deleteAllNotifications (userId' : ObjectId) (s : Store) : Reply nat * Store :=
  let result := Notification_deleteMany userId' s in
  (answer 200 (Some "All notifications deleted successfully") result.1, result.2).

(** ** Manuscript controller, continued *)

(** [Manuscript.find(query)]: the manuscripts that match, with their
    [_id].  The handlers sort them by [createdAt]; that order is not
    represented, the timestamps being left out. *)
Definition Manuscript_find (query : ObjectId → IManuscript → bool)
  : Async (list (ObjectId * IManuscript)) :=
  λ s, (Fulfilled (List.filter (λ p, query p.1 p.2) (map_to_list (manuscripts s))), s, []).

(** The [data] of the listing handlers: [count] and [manuscripts]. *)
Record ManuscriptList := {
  manuscriptCount : nat;
  listedManuscripts : list (ObjectId * IManuscript)
}.

Definition isSubmittedBy (user : ObjectId) (_ : ObjectId) (m : IManuscript) : bool :=
  bool_decide (submittedBy m = user).

Definition isAssignedTo (user : ObjectId) (_ : ObjectId) (m : IManuscript) : bool :=
  bool_decide (user ∈ assignedReviewers m).

(** [GET /api/manuscripts/my-manuscripts] *)
Definition getMyManuscripts (user : option ObjectId) : Async (Reply ManuscriptList) :=
  match user with
  | None => ret (refusal 401 "User not authenticated")
  | Some userId' =>
      found ← Manuscript_find (isSubmittedBy userId');
      ret (answer 200 (Some "Manuscripts retrieved successfully")
             {| manuscriptCount := length found; listedManuscripts := found |})
  end.

(** [GET /api/manuscripts/:id] *)
Definition getManuscriptById (id : ObjectId) : Async (Reply IManuscript) :=
  found ← Manuscript_findById id;
  match found with
  | None => ret (refusal 404 "Manuscript not found")
  | Some manuscript => ret (answer 200 None manuscript)
  end.

(** [GET /api/manuscripts/assigned-to-me] *)
Definition getAssignedManuscripts (user : option ObjectId) : Async (Reply ManuscriptList) :=
  match user with
  | None => ret (refusal 401 "User not authenticated")
  | Some userId' =>
      found ← Manuscript_find (isAssignedTo userId');
      ret (answer 200 (Some "Assigned manuscripts retrieved successfully")
             {| manuscriptCount := length found; listedManuscripts := found |})
  end.

(** [Review.find({manuscriptId}).sort({createdAt: -1})]: last created first. *)
Definition Review_find (manuscript : ObjectId) : Async (list IReview) :=
  λ s, (Fulfilled (reverse (List.filter (forManuscript manuscript) (reviews s))), s, []).

(** The [data] of [getManuscriptReviews]: [reviews], [totalReviews] and
    [assignedReviewers]. *)
Record ReviewList := {
  listedReviews : list IReview;
  totalReviews : nat;
  assignedCount : nat
}.

(** [GET /api/manuscripts/:id/reviews] *)
Definition getManuscriptReviews (id : ObjectId) : Async (Reply ReviewList) :=
  found ← Manuscript_findById id;
  match found with
  | None => ret (refusal 404 "Manuscript not found")
  | Some manuscript =>
      reviews' ← Review_find id;
      ret (answer 200 (Some "Reviews fetched successfully")
             {| listedReviews := reviews'; totalReviews := length reviews';
                assignedCount := length (assignedReviewers manuscript) |})
  end.

Definition byReviewer (user : ObjectId) (r : IReview) : bool :=
  bool_decide (reviewerId r = user).

(** [Review.countDocuments({reviewerId})]. *)
Definition Review_countDocumentsBy (reviewer : ObjectId) : Async nat :=
  λ s, (Fulfilled (length (List.filter (byReviewer reviewer) (reviews s))), s, []).

(** The [data] of [getReviewerStats]; [pendingReviews] is a JavaScript
    difference of two counts, an integer. *)
Record ReviewerStats := {
  totalAssigned : nat;
  completedReviews : nat;
  pendingReviews : Z
}.

(** [GET /api/manuscripts/reviewer-stats] *)
Definition getReviewerStats (user : option ObjectId) : Async (Reply ReviewerStats) :=
  match user with
  | None => ret (refusal 401 "User not authenticated")
  | Some reviewerId' =>
      assignedManuscripts ← Manuscript_find (isAssignedTo reviewerId');
      completedReviews' ← Review_countDocumentsBy reviewerId';
      ret (answer 200 (Some "Reviewer statistics retrieved successfully")
             {| totalAssigned := length assignedManuscripts;
                completedReviews := completedReviews';
                pendingReviews :=
                  (Z.of_nat (length assignedManuscripts) - Z.of_nat completedReviews')%Z |})
  end.

(** The [data] of [getAuthorStats]. *)
Record AuthorStats := {
  totalSubmissions : nat;
  acceptedWorks : nat;
  rejectedWorks : nat;
  underReview : nat;
  pending : nat
}.

Definition hasStatus (st : ManuscriptStatus) (p : ObjectId * IManuscript) : bool :=
  bool_decide (status p.2 = st).

(** [GET /api/manuscripts/author-stats] *)
Definition getAuthorStats (user : option ObjectId) : Async (Reply AuthorStats) :=
  match user with
  | None => ret (refusal 401 "User not authenticated")
  | Some authorId =>
      manuscripts' ← Manuscript_find (isSubmittedBy authorId);
      ret (answer 200 (Some "Author statistics retrieved successfully")
             {| totalSubmissions := length manuscripts';
                acceptedWorks := length (List.filter (hasStatus ACCEPTED) manuscripts');
                rejectedWorks := length (List.filter (hasStatus REJECTED) manuscripts');
                underReview := length (List.filter (hasStatus UNDER_REVIEW) manuscripts');
                pending :=
                  length (List.filter
                            (λ m, hasStatus SUBMITTED m || hasStatus DECISION_READY m)
                            manuscripts') |})
  end.

(** ** User controller *)



Definition isActiveReviewer (_ : ObjectId) (u : IUser) : bool :=
  bool_decide (role u = REVIEWER) && isActive u.

Definition byFullname (p q : ObjectId * IUser) : Prop :=
  String.le (fullname p.2) (fullname q.2).

#[global] Instance byFullname_dec : RelDecision byFullname.
Proof. intros p q. unfold byFullname. apply _. Defined.

(** The [data] of [getReviewers]: [count] and [reviewers]. *)
Record ReviewerList := {
  reviewerCount : nat;
  listedReviewers : list (ObjectId * IUser)
}.

(** [GET /api/users/reviewers]: [User.find({role: REVIEWER, isActive:
    true}).sort({fullname: 1})], the names compared byte by byte. *)
Definition getReviewers : Async (Reply ReviewerList) :=
  found ← User_find isActiveReviewer;
  let reviewers := merge_sort byFullname found in
  ret (answer 200 (Some "Reviewers retrieved successfully")
         {| reviewerCount := length reviewers; listedReviewers := reviewers |}).

(** The [data] of [getUserStats]; [usersByRole] is the result of the
    [$group] stage, one entry per role that some user has. *)
Record UserStats := {
  totalUsers : nat;
  activeUsers : nat;
  usersByRole : list (UserRole * nat)
}.

Definition countUsers (query : IUser → bool) (s : Store) : nat :=
  length (List.filter (λ p : ObjectId * IUser, query p.2) (map_to_list (users s))).

(** [User.aggregate([{$group: {_id: '$role', count: {$sum: 1}}}])]. *)
Definition User_aggregateByRole (s : Store) : list (UserRole * nat) :=
  List.filter (λ g : UserRole * nat, negb (g.2 =? 0))
    (map (λ r, (r, countUsers (λ u, bool_decide (role u = r)) s))
         [ADMIN; AUTHOR; REVIEWER; EDITOR]).

(** [GET /api/users/stats] *)
Definition getUserStats : Async (Reply UserStats) :=
  λ s,
    (Fulfilled
       (answer 200 (Some "User statistics retrieved successfully")
          {| totalUsers := countUsers (λ _, true) s;
             activeUsers := countUsers isActive s;
             usersByRole := User_aggregateByRole s |}),
     s, []).




(** ** Sequences of workflow requests *)

(** The requests that write manuscripts and reviews. *)
Inductive Request :=
  | SubmitManuscript (file : option UploadedFile)
      (title' abstract' keywords' authors' : option string) (user : option ObjectId)
  | AssignReviewers (id : ObjectId) (reviewerIds' : option (list ObjectId))
      (user : option ObjectId)
  | UpdateManuscriptStatus (id : ObjectId) (status' : option string)
  | SubmitReview (id : ObjectId) (user : option ObjectId)
      (recommendation' comments' strengths' weaknesses' suggestions' : option string)
  | MakeDecision (id : ObjectId) (decision : option string) (user : option ObjectId).

Definition handle (q : Request) : Async Response :=
  match q with
  | SubmitManuscript file t a k au user => submitManuscript file t a k au user
  | AssignReviewers id rids user => assignReviewers id rids user
  | UpdateManuscriptStatus id st => updateManuscriptStatus id st
  | SubmitReview id user rec com str weak sug => submitReview id user rec com str weak sug
  | MakeDecision id decision user => makeDecision id decision user
  end.

Definition isOverride (q : Request) : bool :=
  match q with
  | UpdateManuscriptStatus _ _ => true
  | _ => false
  end.

(** The store after the requests have been served one after the other. *)
Fixpoint serve (qs : list Request) (s : Store) : Store :=
  match qs with
  | [] => s
  | q :: qs' => serve qs' (store (handle q s))
  end.

(** The requests of the scenario, in order. *)
Definition session : list Request :=
  [SubmitManuscript (Some Scenario.upload) (Some "Traces") (Some "On write logs")
     (Some "logs") (Some "Ann") (Some 1);
   AssignReviewers 0 (Some [3; 4]) (Some 2);
   SubmitReview 0 (Some 3) (Some "ACCEPT") (Some "Sound") None None None;
   SubmitReview 0 (Some 4) (Some "MINOR_REVISION") (Some "Typos") None None None;
   MakeDecision 0 (Some "ACCEPTED") (Some 2)].



(** ** Vocabulary of the further properties *)

(** At most one review per manuscript and reviewer. *)
Definition uniqueReviews (s : Store) : Prop :=
  NoDup (map (λ r, (manuscriptId r, reviewerId r)) (reviews s)).

(** A manuscript that is DECISION_READY, ACCEPTED or REJECTED has at
    least as many reviews as assigned reviewers. *)
Definition pastReview (st : ManuscriptStatus) : Prop :=
  st = DECISION_READY ∨ st = ACCEPTED ∨ st = REJECTED.

Definition reviewsComplete (s : Store) : Prop :=
  ∀ id m, manuscripts s !! id = Some m → pastReview (status m) →
          length (assignedReviewers m) ≤ reviewCount s id.

(** The fields of a manuscript that are given at submission. *)
Definition sameContent (m m' : IManuscript) : Prop :=
  title m' = title m ∧ abstract m' = abstract m ∧ keywords m' = keywords m
  ∧ authors m' = authors m ∧ submittedBy m' = submittedBy m
  ∧ fileName m' = fileName m ∧ fileUrl m' = fileUrl m.



(** * Lemmas and theorems *)

(** The statuses along the scenario, and the second decision refused. *)
Example scenario_statuses :
  statusOf Scenario.submitted 0 = Some SUBMITTED
  ∧ statusOf Scenario.assigned 0 = Some UNDER_REVIEW
  ∧ statusOf Scenario.firstReview 0 = Some UNDER_REVIEW
  ∧ statusOf Scenario.secondReview 0 = Some DECISION_READY
  ∧ statusOf Scenario.accepted 0 = Some ACCEPTED
  ∧ length <$> (notifications <$> [Scenario.submitted; Scenario.assigned;
                                   Scenario.firstReview; Scenario.secondReview;
                                   Scenario.accepted])
    = [3; 8; 11; 14; 16]
  ∧ statusCode <$> (match outcome (makeDecision 0 (Some "ACCEPTED") (Some 2)
                                     Scenario.accepted) with
                    | Fulfilled resp => Some resp
                    | Rejected _ => None
                    end) = Some 400.
Proof. vm_compute. done. Qed.

(** ** Notification creation, case by case *)

Lemma with_notifications_id (s : Store) :
  with_notifications (notifications s) s = s.
Proof. by destruct s. Qed.

Lemma Notification_create_run user msg s :
  Notification_create user msg s =
    if validMessage msg
    then (Fulfilled (notification user msg),
          with_notifications (notifications s ++ [notification user msg]) s,
          [NotificationCreated user (trim msg)])
    else (Rejected (ValidationFailed "Notification" "message"), s, []).
Proof.
  unfold Notification_create, validMessage, notification, throw.
  by destruct (_ || _).
Qed.

Lemma notifyAll_run ids msg s :
  notifyAll ids msg s =
    if validMessage msg
    then (Fulfilled (map (λ i, notification i msg) ids),
          with_notifications
            (notifications s ++ map (λ i, notification i msg) ids) s,
          map (λ i, NotificationCreated i (trim msg)) ids)
    else (match ids with
          | [] => Fulfilled []
          | _ => Rejected (ValidationFailed "Notification" "message")
          end, s, []).
Proof.
  unfold notifyAll. revert s.
  induction ids as [|i ids IH]; intros s; simpl.
  - unfold ret. rewrite app_nil_r, with_notifications_id. by destruct (validMessage msg).
  - rewrite Notification_create_run.
    destruct (validMessage msg) eqn:E; simpl; rewrite IH; simpl.
    + unfold with_notifications; simpl. by rewrite <- app_assoc.
    + done.
Qed.

Lemma markRead_settled user n :
  isUnreadOf user (if isUnreadOf user n then markRead n else n) = false.
Proof.
  destruct (isUnreadOf user n) eqn:E; [|done].
  unfold isUnreadOf, markRead. simpl. apply andb_false_r.
Qed.

(** ** The notification dispatcher *)

(** C8. [markAllAsRead] always answers 200 with the number of
    notifications it modified, and running it a second time leaves the
    store, in particular the notifications, as the first run left it. *)
Theorem markAllAsRead_idempotent (user : ObjectId) (s : Store) :
  let r1 := markAllAsRead user s in
  let r2 := markAllAsRead user (store r1) in
  store r2 = store r1
  ∧ notifications (store r2) = notifications (store r1)
  ∧ outcome r1 =
      Fulfilled (succeeded 200 "All notifications marked as read"
                   (ModifiedCount (length (List.filter (isUnreadOf user) (notifications s)))))
  ∧ outcome r2 =
      Fulfilled (succeeded 200 "All notifications marked as read" (ModifiedCount 0)).
Proof.
  set (f := λ n, if isUnreadOf user n then markRead n else n).
  assert (Hmap : map f (map f (notifications s)) = map f (notifications s)).
  { rewrite map_map. apply map_ext. intros n. unfold f.
    by rewrite (markRead_settled user n). }
  assert (Hnone : List.filter (isUnreadOf user) (map f (notifications s)) = []).
  { clear Hmap. induction (notifications s) as [|n l IH]; [done|]. simpl.
    unfold f at 1. by rewrite (markRead_settled user n). }
  unfold markAllAsRead, Notification_updateMany. async_unfold.
  unfold with_notifications; simpl. fold f. rewrite Hmap, Hnone. done.
Qed.

(** ** Decisions *)

Lemma validDecision_check (decision : option string) :
  validDecision decision →
  negb (truthy decision)
  || negb (bool_decide (decision = Some "ACCEPTED")
           || bool_decide (decision = Some "REJECTED")) = false.
Proof. by intros [-> | ->]. Qed.

Lemma invalidDecision_check (decision : option string) :
  ¬ validDecision decision →
  negb (truthy decision)
  || negb (bool_decide (decision = Some "ACCEPTED")
           || bool_decide (decision = Some "REJECTED")) = true.
Proof.
  intros H. unfold validDecision in H.
  rewrite !bool_decide_eq_false_2 by tauto. apply orb_true_r.
Qed.

(** C4. A decision other than ACCEPTED or REJECTED is refused with the
    validation message whatever the manuscript; a valid decision on an
    existing manuscript that is not DECISION_READY (ACCEPTED and REJECTED
    included) is refused with the state message, and nothing is written:
    the manuscript keeps its status. *)
Theorem makeDecision_guards (id : ObjectId) (decision : option string)
    (user : option ObjectId) (s : Store) :
  (¬ validDecision decision →
   makeDecision id decision user s =
     (Fulfilled (failure 400 "Please provide a valid decision (ACCEPTED or REJECTED)"),
      s, []))
  ∧ (∀ m, manuscripts s !! id = Some m →
          status m ≠ DECISION_READY →
          validDecision decision →
          makeDecision id decision user s =
            (Fulfilled
               (failure 400
                  "Manuscript must be in DECISION_READY status before making a decision"),
             s, [])
          ∧ manuscripts (store (makeDecision id decision user s)) !! id = Some m).
Proof.
  split.
  - intros H. unfold makeDecision. by rewrite invalidDecision_check.
  - intros m Hm Hst Hd.
    assert (makeDecision id decision user s =
      (Fulfilled
         (failure 400
            "Manuscript must be in DECISION_READY status before making a decision"),
       s, [])) as ->; [|done].
    unfold makeDecision. rewrite validDecision_check by done.
    unfold Manuscript_findById. async_unfold. rewrite Hm.
    by rewrite bool_decide_eq_false_2.
Qed.

(** ** The administrative override *)

Lemma parseManuscriptStatus_truthy (st : string) (v : ManuscriptStatus) :
  parseManuscriptStatus st = Some v → truthy (Some st) = true.
Proof. by destruct st. Qed.

(** C10. On an existing manuscript and a valid status value, the override
    answers 200 and writes the status and nothing else: every other field
    of the manuscript, every other manuscript, the users, the reviews and
    the notifications are as before, and the single write is the update of
    that manuscript. *)
Theorem updateManuscriptStatus_frame (id : ObjectId) (st : string)
    (v : ManuscriptStatus) (m : IManuscript) (s : Store) :
  manuscripts s !! id = Some m →
  parseManuscriptStatus st = Some v →
  let r := updateManuscriptStatus id (Some st) s in
  ∃ m',
    manuscripts (store r) !! id = Some m'
    ∧ outcome r =
        Fulfilled (succeeded 200 "Manuscript status updated successfully"
                     (ManuscriptData id (Some m')))
    ∧ status m' = v
    ∧ title m' = title m ∧ abstract m' = abstract m ∧ keywords m' = keywords m
    ∧ authors m' = authors m ∧ submittedBy m' = submittedBy m
    ∧ assignedReviewers m' = assignedReviewers m
    ∧ fileName m' = fileName m ∧ fileUrl m' = fileUrl m
    ∧ (∀ j, j ≠ id → manuscripts (store r) !! j = manuscripts s !! j)
    ∧ users (store r) = users s
    ∧ reviews (store r) = reviews s
    ∧ notifications (store r) = notifications s
    ∧ trace r = [ManuscriptUpdated id v].
Proof.
  intros Hm Hv r. subst r. unfold updateManuscriptStatus.
  rewrite (parseManuscriptStatus_truthy st v Hv). simpl. rewrite Hv.
  unfold Manuscript_findByIdAndUpdate. async_unfold. rewrite Hm. simpl.
  exists (set_status v m). rewrite lookup_insert_eq.
  repeat split; try done.
  intros j Hj. by rewrite lookup_insert_ne.
Qed.

(** ** The user directory *)

Section UserDirectory.

Context (query : ObjectId → IUser → bool) (s : Store).

Lemma filter_fst_NoDup (l : list (ObjectId * IUser)) :
  NoDup l.*1 → NoDup (List.filter (λ p, query p.1 p.2) l).*1.
Proof.
  induction l as [|p l IH]; simpl; [done|].
  rewrite NoDup_cons. intros [Hp Hl].
  destruct (query p.1 p.2); simpl; [|by apply IH].
  apply NoDup_cons. split; [|by apply IH].
  intros Hin. apply Hp.
  apply list_elem_of_fmap in Hin as (p' & -> & Hp').
  apply list_elem_of_In, filter_In in Hp' as [Hp' _].
  apply list_elem_of_fmap. exists p'. by rewrite list_elem_of_In.
Qed.

Lemma User_find_NoDup :
  NoDup (List.filter (λ p : ObjectId * IUser, query p.1 p.2) (map_to_list (users s))).*1.
Proof. apply filter_fst_NoDup, NoDup_fst_map_to_list. Qed.

Lemma User_find_elem (i : ObjectId) :
  i ∈ (List.filter (λ p : ObjectId * IUser, query p.1 p.2) (map_to_list (users s))).*1
  ↔ ∃ u, users s !! i = Some u ∧ query i u = true.
Proof.
  rewrite list_elem_of_fmap. split.
  - intros ([j u] & -> & Hin).
    apply list_elem_of_In, filter_In in Hin as [Hin Hq].
    apply list_elem_of_In, elem_of_map_to_list in Hin. by exists u.
  - intros (u & Hu & Hq). exists (i, u). split; [done|].
    apply list_elem_of_In, filter_In. split; [|done].
    by apply list_elem_of_In, elem_of_map_to_list.
Qed.

End UserDirectory.

Lemma isAdminOrEditor_spec (s : Store) (i : ObjectId) :
  (∃ u, users s !! i = Some u ∧ isAdminOrEditor i u = true) ↔ adminOrEditor s i.
Proof.
  unfold adminOrEditor, isAdminOrEditor.
  split; intros (u & Hu & H); exists u; (split; [done|]).
  - apply orb_true_iff in H as [H|H]; apply bool_decide_eq_true in H; tauto.
  - apply orb_true_iff. rewrite !bool_decide_eq_true. done.
Qed.

Lemma isActiveReviewerIn_spec (s : Store) (ids : list ObjectId) (i : ObjectId) :
  (∃ u, users s !! i = Some u ∧ isActiveReviewerIn ids i u = true)
  ↔ i ∈ ids ∧ activeReviewer s i.
Proof.
  unfold activeReviewer, isActiveReviewerIn. split.
  - intros (u & Hu & H).
    apply andb_true_iff in H as [H Ha]. apply andb_true_iff in H as [Hi Hr].
    apply bool_decide_eq_true in Hi, Hr. eauto.
  - intros (Hi & u & Hu & Hr & Ha). exists u. split; [done|].
    rewrite !andb_true_iff, !bool_decide_eq_true. done.
Qed.

(** The check of [assignReviewers]: as many users match as ids were
    supplied exactly when the ids are pairwise distinct and each one is an
    active reviewer. *)
Lemma reviewers_found_all (s : Store) (ids : list ObjectId) :
  length (List.filter (λ p : ObjectId * IUser, isActiveReviewerIn ids p.1 p.2)
            (map_to_list (users s))) = length ids
  ↔ NoDup ids ∧ ∀ i, i ∈ ids → activeReviewer s i.
Proof.
  set (found := List.filter _ _).
  assert (Hnd : NoDup found.*1) by apply User_find_NoDup.
  assert (Hel : ∀ i, i ∈ found.*1 ↔ i ∈ ids ∧ activeReviewer s i).
  { intros i. unfold found. rewrite User_find_elem. apply isActiveReviewerIn_spec. }
  assert (Hsub : found.*1 ⊆+ ids).
  { apply NoDup_submseteq; [done|]. intros i Hi. by apply Hel in Hi as [? _]. }
  rewrite <- (length_fmap fst found). split.
  - intros Hlen.
    assert (Hperm : found.*1 ≡ₚ ids).
    { apply submseteq_length_Permutation; [done|lia]. }
    split; [by rewrite <- Hperm|].
    intros i Hi. rewrite <- Hperm in Hi. by apply Hel in Hi as [_ ?].
  - intros [Hids Hall]. apply Nat.le_antisymm; [by apply submseteq_length|].
    apply submseteq_length, NoDup_submseteq; [done|].
    intros i Hi. apply Hel. auto.
Qed.

(** ** Stepping through a handler *)

Lemma adminsAndEditorsOf_spec (s : Store) :
  NoDup (adminsAndEditorsOf s) ∧ ∀ i, i ∈ adminsAndEditorsOf s ↔ adminOrEditor s i.
Proof.
  split; [apply User_find_NoDup|].
  intros i. unfold adminsAndEditorsOf. rewrite User_find_elem.
  apply isAdminOrEditor_spec.
Qed.

(** One awaited notification step: rewrite the creation to its two cases
    and split on the validity of the message. *)
Ltac async_step H :=
  first [ rewrite Notification_create_run in H | rewrite notifyAll_run in H ];
  match type of H with
  | context [if validMessage ?m then _ else _] => destruct (validMessage m) eqn:?
  end;
  async_simpl H.

Ltac store_fields :=
  cbn [app fst snd users manuscripts reviews notifications
       with_manuscripts with_reviews with_notifications];
  rewrite ?app_nil_r, <- ?app_assoc; cbn [app].

Ltac trace_fields :=
  cbn [map app]; rewrite ?map_app, ?map_map; cbn [notificationEvent notification userId message];
  try reflexivity.

(** ** Reviewer assignment *)

(** What a call of [assignReviewers] can do: either it is refused and
    writes nothing, or it saves the manuscript with the new reviewers and
    status UNDER_REVIEW and then creates notifications; when it answers,
    the notifications are those of the author, the reviewers and the
    admins and editors. *)
Lemma assignReviewers_cases (id : ObjectId) (rids : option (list ObjectId))
    (user : option ObjectId) (s : Store) :
  let r := assignReviewers id rids user s in
  (store r = s ∧ trace r = []
   ∧ ∃ resp, outcome r = Fulfilled resp ∧ success resp = false)
  ∨ (∃ l m ns,
       rids = Some l ∧ l ≠ [] ∧ manuscripts s !! id = Some m
       ∧ NoDup l ∧ (∀ i, i ∈ l → activeReviewer s i)
       ∧ users (store r) = users s ∧ reviews (store r) = reviews s
       ∧ manuscripts (store r) =
           <[id := set_status UNDER_REVIEW (set_assignedReviewers l m)]> (manuscripts s)
       ∧ notifications (store r) = notifications s ++ ns
       ∧ trace r = ManuscriptSaved id UNDER_REVIEW :: map notificationEvent ns
       ∧ ∀ resp, outcome r = Fulfilled resp →
           resp = succeeded 200 "Reviewers assigned successfully"
                    (ManuscriptData id
                       (Some (set_status UNDER_REVIEW (set_assignedReviewers l m))))
           ∧ ∃ a b c,
               ns = notification (submittedBy m) a
                    :: map (λ i, notification i b) l
                    ++ map (λ i, notification i c) (adminsAndEditorsOf s)).
Proof.
  intros r. remember r as r' eqn:Hr. subst r. unfold assignReviewers in Hr.
  destruct rids as [[|a l']|];
    [left; subst r'; by eauto| |left; subst r'; by eauto].
  unfold Manuscript_findById, User_find, Manuscript_save, User_findById in Hr.
  async_unfold.
  destruct (manuscripts s !! id) as [m|] eqn:Hm; [|left; subst r'; by eauto].
  destruct (length _ =? length (a :: l')) eqn:Hlen; cbn [negb] in Hr;
    [|left; subst r'; by eauto].
  apply Nat.eqb_eq, reviewers_found_all in Hlen as [Hnd Hall].
  right. exists (a :: l'), m.
  async_step Hr.
  2:{ exists []. subst r'. store_fields. by repeat apply conj. }
  async_step Hr.
  2:{ eexists [_]. subst r'. store_fields. by repeat apply conj. }
  rewrite lookup_insert_eq in Hr.
  async_step Hr; fold (adminsAndEditorsOf s) in Hr.
  2:{ eexists (_ :: map _ (a :: l')).
      destruct (adminsAndEditorsOf s) eqn:Hids; subst r'; store_fields;
        (repeat apply conj; try done; try by trace_fields).
      intros resp Hresp. injection Hresp as <-.
      split; [done|]. eexists _, _, EmptyString.
      cbn [map app]. by rewrite app_nil_r. }
  eexists (_ :: map _ (a :: l') ++ map _ (adminsAndEditorsOf s)).
  subst r'. store_fields.
  repeat apply conj; try done; [trace_fields|].
  intros resp Hresp. injection Hresp as <-. eauto.
Qed.

(** ** Review intake *)

(** A branch that answers before any write. *)
Ltac refused r :=
  left; subst r; async_unfold; repeat apply conj;
  first [done | intros ? [= <-]; done].

Lemma notifyAll_cases ids msg s :
  notifyAll ids msg s =
    if validMessage msg || bool_decide (ids = [])
    then (Fulfilled (map (λ i, notification i msg) ids),
          with_notifications
            (notifications s ++ map (λ i, notification i msg) ids) s,
          map (λ i, NotificationCreated i (trim msg)) ids)
    else (Rejected (ValidationFailed "Notification" "message"), s, []).
Proof.
  rewrite notifyAll_run. destruct (validMessage msg); [done|].
  destruct ids; [|done]. simpl. by rewrite app_nil_r, with_notifications_id.
Qed.

Ltac fanout_step H :=
  rewrite notifyAll_cases in H;
  match type of H with
  | context [if ?c then _ else _] => destruct c eqn:?
  end;
  async_simpl H.

Lemma isAssigned_spec (user : ObjectId) (l : list ObjectId) :
  existsb (λ reviewerId', bool_decide (reviewerId' = user)) l = true ↔ user ∈ l.
Proof.
  rewrite existsb_exists, list_elem_of_In. split.
  - intros (x & Hx & Heq). by apply bool_decide_eq_true in Heq as ->.
  - intros Hin. exists user. by rewrite bool_decide_eq_true.
Qed.

Lemma Review_findOne_None (s : Store) (manuscript reviewer : ObjectId) :
  List.find (λ r, forManuscript manuscript r && bool_decide (reviewerId r = reviewer))
            (reviews s) = None
  ↔ ¬ reviewed s manuscript reviewer.
Proof.
  unfold reviewed, forManuscript. split.
  - intros Hnone (r & Hr & Hm & Hu).
    apply list_elem_of_In in Hr. apply (find_none _ _ Hnone) in Hr.
    by rewrite !bool_decide_eq_true_2 in Hr.
  - intros Hno. destruct (List.find _ _) as [r|] eqn:Hfind; [|done].
    apply find_some in Hfind as [Hin Hr]. destruct Hno. exists r.
    apply andb_true_iff in Hr as [Hm Hu].
    apply bool_decide_eq_true in Hm, Hu. by rewrite list_elem_of_In.
Qed.

Lemma reviewCount_insert (l : list IReview) (r : IReview) (id : ObjectId) :
  manuscriptId r = id →
  length (List.filter (forManuscript id) (l ++ [r]))
  = S (length (List.filter (forManuscript id) l)).
Proof.
  intros Hr. rewrite List.filter_app, length_app. simpl.
  unfold forManuscript at 2. rewrite bool_decide_eq_true_2 by done. simpl. lia.
Qed.

(** What a call of [submitReview] can do: either nothing is written, or
    the review is inserted, then notifications are created, and only
    when they all were, the status write decided by [escalate] follows. *)
Lemma submitReview_cases (id : ObjectId) (user : option ObjectId)
    (rec com str weak sug : option string) (s : Store) :
  let r := submitReview id user rec com str weak sug s in
  (store r = s ∧ trace r = []
   ∧ ∀ resp, outcome r = Fulfilled resp → success resp = false)
  ∨ (∃ uid m rv ns,
       user = Some uid ∧ manuscripts s !! id = Some m
       ∧ uid ∈ assignedReviewers m ∧ ¬ reviewed s id uid
       ∧ manuscriptId rv = id ∧ reviewerId rv = uid
       ∧ users (store r) = users s
       ∧ reviews (store r) = reviews s ++ [rv]
       ∧ notifications (store r) = notifications s ++ ns
       ∧ ((∃ e, outcome r = Rejected e
                ∧ manuscripts (store r) = manuscripts s
                ∧ trace r = ReviewCreated id uid :: map notificationEvent ns)
          ∨ ((∃ a b, ns = notification (submittedBy m) a
                          :: map (λ i, notification i b) (adminsAndEditorsOf s))
             ∧ match escalate m (S (reviewCount s id)) with
               | Some m' =>
                   manuscripts (store r) = <[id := m']> (manuscripts s)
                   ∧ trace r = ReviewCreated id uid :: map notificationEvent ns
                                 ++ [ManuscriptSaved id (status m')]
                   ∧ outcome r =
                       Fulfilled (succeeded 201 "Review submitted successfully"
                                    (ReviewData rv (status m')))
               | None =>
                   manuscripts (store r) = manuscripts s
                   ∧ trace r = ReviewCreated id uid :: map notificationEvent ns
                   ∧ outcome r =
                       Fulfilled (succeeded 201 "Review submitted successfully"
                                    (ReviewData rv (status m)))
               end))).
Proof.
  intros r. remember r as r' eqn:Hr. subst r. unfold submitReview in Hr.
  destruct user as [uid|]; [|by refused r'].
  unfold Manuscript_findById, Review_findOne, Review_create, User_findById,
    User_find, Review_countDocuments, Manuscript_save in Hr.
  async_unfold.
  destruct (manuscripts s !! id) as [m|] eqn:Hm; [|by refused r'].
  destruct (existsb _ _) eqn:Hassigned; cbn [negb] in Hr;
    [|by refused r'].
  apply isAssigned_spec in Hassigned.
  destruct (List.find _ _) eqn:Hfind; [by refused r'|].
  apply Review_findOne_None in Hfind.
  destruct (option_bind _ _ parseReviewRecommendation rec) as [rec'|];
    [|by refused r'].
  destruct (truthy com); [|by refused r'].
  async_simpl Hr.
  right. exists uid, m.
  match type of Hr with context [ReviewData ?rv _] => exists rv end.
  async_step Hr.
  2:{ exists []. subst r'. store_fields. repeat apply conj; try done.
      left. eauto. }
  fanout_step Hr; fold (adminsAndEditorsOf s) in Hr.
  2:{ eexists [_]. subst r'. store_fields. repeat apply conj; try done.
      left. eauto. }
  eexists (_ :: map _ (adminsAndEditorsOf s)).
  rewrite reviewCount_insert in Hr by done. fold (reviewCount s id) in Hr.
  unfold escalate.
  destruct (length (assignedReviewers m) <=? S (reviewCount s id));
    [|destruct (bool_decide (status m = SUBMITTED))];
    async_simpl Hr; subst r'; store_fields;
    (repeat apply conj; try done; right; split; [by eauto|]);
    repeat apply conj; try done; trace_fields.
Qed.

(** ** Decision and submission *)

(** What a call of [makeDecision] can do: either nothing is written, or
    the manuscript, which was DECISION_READY, is saved with the decision
    and then notifications are created. *)
Lemma makeDecision_cases (id : ObjectId) (decision : option string)
    (user : option ObjectId) (s : Store) :
  let r := makeDecision id decision user s in
  (store r = s ∧ trace r = []
   ∧ ∀ resp, outcome r = Fulfilled resp → success resp = false)
  ∨ (∃ m ns,
       manuscripts s !! id = Some m ∧ status m = DECISION_READY
       ∧ validDecision decision
       ∧ users (store r) = users s ∧ reviews (store r) = reviews s
       ∧ manuscripts (store r) = <[id := set_status (decided decision) m]> (manuscripts s)
       ∧ notifications (store r) = notifications s ++ ns
       ∧ trace r = ManuscriptSaved id (decided decision) :: map notificationEvent ns
       ∧ ∀ resp, outcome r = Fulfilled resp →
           success resp = true
           ∧ ∃ a b, ns = notification (submittedBy m) a
                         :: map (λ i, notification i b) (adminsOf s)).
Proof.
  intros r. remember r as r' eqn:Hr. subst r. unfold makeDecision in Hr.
  destruct (negb (truthy decision) || _) eqn:Hvalid; [by refused r'|].
  assert (Hd : validDecision decision).
  { apply orb_false_iff in Hvalid as [_ Hvalid].
    apply negb_false_iff, orb_true_iff in Hvalid as [H|H];
      apply bool_decide_eq_true in H; [by left|by right]. }
  unfold Manuscript_findById, populate, User_findById, User_find, Manuscript_save in Hr.
  async_unfold.
  destruct (manuscripts s !! id) as [m|] eqn:Hm; [|by refused r'].
  destruct (bool_decide (status m = DECISION_READY)) eqn:Hst; cbn [negb] in Hr;
    [|by refused r'].
  apply bool_decide_eq_true in Hst.
  fold (decided decision) in Hr.
  right. exists m.
  destruct (users s !! submittedBy m) as [author|]; async_simpl Hr.
  2:{ exists []. subst r'. store_fields. by repeat apply conj. }
  async_step Hr.
  2:{ exists []. subst r'. store_fields. by repeat apply conj. }
  fanout_step Hr; fold (adminsOf s) in Hr.
  2:{ eexists [_]. subst r'. store_fields. by repeat apply conj. }
  eexists (_ :: map _ (adminsOf s)).
  subst r'. store_fields.
  repeat apply conj; try done; [trace_fields|].
  intros resp [= <-]. eauto.
Qed.

(** What a call of [submitManuscript] can do: either nothing is written,
    or the manuscript is created under an unused id, in SUBMITTED and
    with no reviewer, and then notifications are created. *)
Lemma submitManuscript_cases (file : option UploadedFile)
    (title' abstract' keywords' authors' : option string)
    (user : option ObjectId) (s : Store) :
  let r := submitManuscript file title' abstract' keywords' authors' user s in
  (store r = s ∧ trace r = []
   ∧ ∀ resp, outcome r = Fulfilled resp → success resp = false)
  ∨ (∃ uid mid m ns,
       user = Some uid ∧ manuscripts s !! mid = None
       ∧ status m = SUBMITTED ∧ submittedBy m = uid ∧ assignedReviewers m = []
       ∧ users (store r) = users s ∧ reviews (store r) = reviews s
       ∧ manuscripts (store r) = <[mid := m]> (manuscripts s)
       ∧ notifications (store r) = notifications s ++ ns
       ∧ trace r = ManuscriptCreated mid :: map notificationEvent ns
       ∧ ∀ resp, outcome r = Fulfilled resp →
           success resp = true
           ∧ ∃ a b, ns = notification uid a
                         :: map (λ i, notification i b) (adminsAndEditorsOf s)).
Proof.
  intros r. remember r as r' eqn:Hr. subst r. unfold submitManuscript in Hr.
  destruct file as [file|]; [|by refused r'].
  destruct (negb (truthy title') || _ || _ || _); [by refused r'|].
  destruct user as [uid|]; [|by refused r'].
  unfold Manuscript_create, User_findById, User_find in Hr.
  async_unfold. cbn [title abstract keywords authors fileName] in Hr.
  repeat match type of Hr with
         | context [if String.length ?x =? 0 then _ else _] =>
             destruct (String.length x =? 0); [by refused r'|]
         end.
  async_simpl Hr.
  right. exists uid, (fresh (dom (manuscripts s))).
  match type of Hr with context [ManuscriptData _ (Some ?m)] => exists m end.
  assert (Hfresh : manuscripts s !! fresh (dom (manuscripts s)) = None).
  { apply not_elem_of_dom, is_fresh. }
  async_step Hr.
  2:{ exists []. subst r'. store_fields. by repeat apply conj. }
  fanout_step Hr; fold (adminsAndEditorsOf s) in Hr.
  2:{ eexists [_]. subst r'. store_fields. by repeat apply conj. }
  eexists (_ :: map _ (adminsAndEditorsOf s)).
  subst r'. store_fields.
  repeat apply conj; try done; [trace_fields|].
  intros resp [= <-]. eauto.
Qed.



(** ** Terminal statuses *)




(** ** One review per reviewer *)

(** C3, as stated, fails: a reviewer who has a review on record and has
    since been replaced is answered 403, not assigned, rather than with
    the already-submitted conflict. *)
Lemma second_review_after_reassignment :
  let r := submitReview 0 (Some 3) (Some "REJECT") (Some "Again") None None None
             Scenario.reassigned in
  (manuscriptId <$> reviews Scenario.reassigned) = [0]
  ∧ (reviewerId <$> reviews Scenario.reassigned) = [3]
  ∧ (assignedReviewers <$> manuscripts Scenario.reassigned !! 0) = Some [4]
  ∧ outcome r
    = Fulfilled (failure 403 "You are not assigned to review this manuscript")
  ∧ outcome r
    ≠ Fulfilled (failure 400 "You have already submitted a review for this manuscript").
Proof. vm_compute. repeat split; discriminate. Qed.

(** C3, amended. When the reviewer already has a review on record for an
    existing manuscript, a further [submitReview] is refused whatever the
    status, writes nothing and so creates no review: with the
    already-submitted conflict when the reviewer is still assigned, and
    with the 403 of an unassigned reviewer otherwise. *)
Theorem second_review_refused (id uid : ObjectId)
    (rec com str weak sug : option string) (s : Store) (m : IManuscript) :
  manuscripts s !! id = Some m →
  reviewed s id uid →
  submitReview id (Some uid) rec com str weak sug s =
    (Fulfilled
       (if bool_decide (uid ∈ assignedReviewers m)
        then failure 400 "You have already submitted a review for this manuscript"
        else failure 403 "You are not assigned to review this manuscript"),
     s, []).
Proof.
  intros Hm Hrev. unfold submitReview.
  unfold Manuscript_findById, Review_findOne. async_unfold. rewrite Hm.
  destruct (existsb _ _) eqn:Hassigned; cbn [negb].
  - apply isAssigned_spec in Hassigned.
    rewrite (bool_decide_eq_true_2 (uid ∈ assignedReviewers m)) by done.
    destruct (List.find _ _) eqn:Hfind; cbn [app fst snd]; [done|].
    by apply Review_findOne_None in Hfind.
  - cbn [app fst snd].
    rewrite (bool_decide_eq_false_2 (uid ∈ assignedReviewers m)); [done|].
    intros Hin. apply isAssigned_spec in Hin. congruence.
Qed.

Lemma second_review_refused_witness :
  let r := submitReview 0 (Some 3) (Some "REJECT") (Some "Again") None None None
             Scenario.firstReview in
  outcome r
  = Fulfilled (failure 400 "You have already submitted a review for this manuscript")
  ∧ reviews (store r) = reviews Scenario.firstReview.
Proof.
  intros r. subst r.
  epose proof (second_review_refused 0 3 (Some "REJECT") (Some "Again") None None None
                 Scenario.firstReview _ ltac:(vm_compute; reflexivity)) as H.
  rewrite H.
  - split; reflexivity.
  - eexists. split; [|split].
    + apply list_elem_of_here.
    + reflexivity.
    + reflexivity.
Defined.

(** ** Order of the writes *)




(** ** Assignment contract *)

Lemma assignReviewers_invalid (id : ObjectId) (l : list ObjectId)
    (user : option ObjectId) (s : Store) (m : IManuscript) :
  l ≠ [] →
  manuscripts s !! id = Some m →
  ¬ (NoDup l ∧ ∀ i, i ∈ l → activeReviewer s i) →
  assignReviewers id (Some l) user s =
    (Fulfilled (failure 400 "One or more invalid reviewer IDs or reviewers are not active"),
     s, []).
Proof.
  intros Hl Hm Hbad. unfold assignReviewers.
  destruct l as [|a l']; [done|].
  unfold Manuscript_findById, User_find. async_unfold. rewrite Hm.
  destruct (length _ =? length (a :: l')) eqn:Hlen; [|done].
  by apply Nat.eqb_eq, reviewers_found_all in Hlen.
Qed.

(** C9, as stated, fails: with a duplicated id and a manuscript that does
    not exist the call is answered 404, the existence of the manuscript
    being checked before the reviewers are looked up. *)
Lemma duplicate_ids_on_missing_manuscript :
  manuscripts Scenario.submitted !! 7 = None
  ∧ assignReviewers 7 (Some [3; 3]) (Some 2) Scenario.submitted
    = (Fulfilled (failure 404 "Manuscript not found"), Scenario.submitted, []).
Proof. vm_compute. done. Qed.

(** C9, amended. On an existing manuscript, a list of reviewer ids with a
    duplicate is refused with the invalid-reviewer message, whether or not
    each id is an active reviewer, and nothing is written. *)
Theorem assignReviewers_duplicate_ids (id : ObjectId) (l : list ObjectId)
    (user : option ObjectId) (s : Store) (m : IManuscript) :
  manuscripts s !! id = Some m →
  ¬ NoDup l →
  assignReviewers id (Some l) user s =
    (Fulfilled (failure 400 "One or more invalid reviewer IDs or reviewers are not active"),
     s, []).
Proof.
  intros Hm Hdup. apply (assignReviewers_invalid id l user s m); [|done|tauto].
  intros ->. apply Hdup. constructor.
Qed.

Lemma assignReviewers_duplicate_ids_witness :
  activeReviewer Scenario.submitted 3
  ∧ assignReviewers 0 (Some [3; 3]) (Some 2) Scenario.submitted
    = (Fulfilled
         (failure 400 "One or more invalid reviewer IDs or reviewers are not active"),
       Scenario.submitted, []).
Proof.
  split.
  - eexists. split; [vm_compute; reflexivity|]. split; reflexivity.
  - eapply (assignReviewers_duplicate_ids 0 [3; 3] (Some 2) Scenario.submitted).
    + vm_compute. reflexivity.
    + rewrite NoDup_cons. intros [Hin _]. apply Hin. apply list_elem_of_here.
Defined.

(** C6, as stated, fails: with no reviewer ids and a manuscript that does
    not exist the call is answered 400, the list being checked before the
    manuscript is looked up. *)
Lemma no_ids_on_missing_manuscript :
  manuscripts Scenario.submitted !! 7 = None
  ∧ assignReviewers 7 (Some []) (Some 2) Scenario.submitted
    = (Fulfilled (failure 400 "Please provide an array of reviewer IDs"),
       Scenario.submitted, []).
Proof. vm_compute. done. Qed.

(** C6, amended. [assignReviewers] checks, in this order: the list of
    ids, refused with 400 when it is missing or empty; the manuscript,
    refused with 404 when it is absent; the ids, refused with 400 when
    one of them is not an active REVIEWER.  A refusal writes nothing.
    When the call succeeds, the stored manuscript has exactly the
    supplied ids as assigned reviewers and status UNDER_REVIEW, and the
    notifications created are one for the author, one for each supplied
    id and one for each ADMIN or EDITOR user. *)
Theorem assignReviewers_contract (id : ObjectId) (rids : option (list ObjectId))
    (user : option ObjectId) (s : Store) :
  let r := assignReviewers id rids user s in
  (rids = None ∨ rids = Some [] →
   r = (Fulfilled (failure 400 "Please provide an array of reviewer IDs"), s, []))
  ∧ (∀ l, rids = Some l → l ≠ [] → manuscripts s !! id = None →
          r = (Fulfilled (failure 404 "Manuscript not found"), s, []))
  ∧ (∀ l m i, rids = Some l → manuscripts s !! id = Some m →
              i ∈ l → ¬ activeReviewer s i →
              r = (Fulfilled
                     (failure 400
                        "One or more invalid reviewer IDs or reviewers are not active"),
                   s, []))
  ∧ (∀ resp, outcome r = Fulfilled resp → success resp = true →
       ∃ l m a b c,
         rids = Some l ∧ manuscripts s !! id = Some m
         ∧ manuscripts (store r) =
             <[id := set_status UNDER_REVIEW (set_assignedReviewers l m)]> (manuscripts s)
         ∧ (assignedReviewers <$> manuscripts (store r) !! id) = Some l
         ∧ (status <$> manuscripts (store r) !! id) = Some UNDER_REVIEW
         ∧ notifications (store r) =
             notifications s
             ++ notification (submittedBy m) a
                :: map (λ i, notification i b) l
                ++ map (λ i, notification i c) (adminsAndEditorsOf s)
         ∧ NoDup (adminsAndEditorsOf s)
         ∧ (∀ i, i ∈ adminsAndEditorsOf s ↔ adminOrEditor s i)
         ∧ users (store r) = users s ∧ reviews (store r) = reviews s).
Proof.
  intros r. repeat apply conj.
  - by intros [-> | ->].
  - intros l -> Hl Hm. subst r. unfold assignReviewers.
    destruct l as [|a l']; [done|].
    unfold Manuscript_findById. async_unfold. by rewrite Hm.
  - intros l m i -> Hm Hi Hbad. subst r.
    apply (assignReviewers_invalid id l user s m); [|done|].
    + intros ->. by apply not_elem_of_nil in Hi.
    + intros [_ Hall]. by apply Hbad, Hall.
  - intros resp Hout Hok.
    destruct (assignReviewers_cases id rids user s)
      as [(_ & _ & resp0 & Hresp0 & Hfail)
         | (l & m & ns & -> & _ & Hm & _ & _ & Hus & Hrs & Hms & Hns & _ & Hresp)];
      fold r in Hresp0 || fold r in Hus, Hrs, Hms, Hns, Hresp.
    { congruence. }
    destruct (Hresp resp Hout) as (_ & a & b & c & ->).
    exists l, m, a, b, c. rewrite Hms, lookup_insert_eq.
    destruct (adminsAndEditorsOf_spec s) as [Hnd Hel].
    by repeat apply conj.
Qed.

Lemma assignReviewers_contract_witness :
  let r := assignReviewers 0 (Some [3; 4]) (Some 2) Scenario.submitted in
  (assignedReviewers <$> manuscripts (store r) !! 0) = Some [3; 4]
  ∧ (status <$> manuscripts (store r) !! 0) = Some UNDER_REVIEW
  ∧ userId <$> notifications (store r) = [1; 2; 5; 1; 3; 4; 2; 5]
  ∧ assignReviewers 0 None (Some 2) Scenario.submitted
    = (Fulfilled (failure 400 "Please provide an array of reviewer IDs"),
       Scenario.submitted, [])
  ∧ assignReviewers 7 (Some [3]) (Some 2) Scenario.submitted
    = (Fulfilled (failure 404 "Manuscript not found"), Scenario.submitted, [])
  ∧ assignReviewers 0 (Some [3; 1]) (Some 2) Scenario.submitted
    = (Fulfilled
         (failure 400 "One or more invalid reviewer IDs or reviewers are not active"),
       Scenario.submitted, []).
Proof.
  intros r.
  destruct (assignReviewers_contract 0 (Some [3; 4]) (Some 2) Scenario.submitted)
    as (_ & _ & _ & Hok).
  edestruct Hok as (l & m & a & b & c & Hl & _ & _ & Hrs & Hst & Hns & _).
  { vm_compute. reflexivity. }
  { reflexivity. }
  fold r in Hrs, Hst, Hns. injection Hl as <-.
  split; [exact Hrs|]. split; [exact Hst|]. split.
  { vm_compute. reflexivity. }
  split.
  { apply (assignReviewers_contract 0 None (Some 2) Scenario.submitted). by left. }
  split.
  { apply (proj1 (proj2 (assignReviewers_contract 7 (Some [3]) (Some 2)
                           Scenario.submitted)) [3]);
      [reflexivity|discriminate|vm_compute; reflexivity]. }
  eapply (proj1 (proj2 (proj2 (assignReviewers_contract 0 (Some [3; 1]) (Some 2)
                                 Scenario.submitted))) [3; 1] _ 1).
  - reflexivity.
  - vm_compute. reflexivity.
  - apply list_elem_of_further, list_elem_of_here.
  - intros (u & Hu & Hr & _). vm_compute in Hu. injection Hu as <-. discriminate Hr.
Defined.

(** ** Fan-out of a submission *)

(** C7. When [submitManuscript] answers with success, the notifications
    it has created are one for the submitting user followed by one for
    each user whose role is ADMIN or EDITOR in the store of the call, each
    such user once; the recipients do not depend on the submitted
    fields. *)
Theorem submitManuscript_notifications (file : option UploadedFile)
    (title' abstract' keywords' authors' : option string)
    (user : option ObjectId) (s : Store) (resp : Response) :
  let r := submitManuscript file title' abstract' keywords' authors' user s in
  outcome r = Fulfilled resp →
  success resp = true →
  ∃ uid a b,
    user = Some uid
    ∧ notifications (store r) =
        notifications s
        ++ notification uid a :: map (λ i, notification i b) (adminsAndEditorsOf s)
    ∧ NoDup (adminsAndEditorsOf s)
    ∧ (∀ i, i ∈ adminsAndEditorsOf s ↔ adminOrEditor s i)
    ∧ length (notifications (store r)) =
        length (notifications s) + 1 + length (adminsAndEditorsOf s).
Proof.
  intros r Hout Hok.
  destruct (submitManuscript_cases file title' abstract' keywords' authors' user s)
    as [(_ & _ & Hno)
       | (uid & mid & m & ns & -> & _ & _ & _ & _ & _ & _ & _ & Hns & _ & Hresp)];
    fold r in Hno || fold r in Hns, Hresp.
  { apply Hno in Hout. congruence. }
  destruct (Hresp resp Hout) as (_ & a & b & ->).
  destruct (adminsAndEditorsOf_spec s) as [Hnd Hel].
  exists uid, a, b. repeat apply conj; try done.
  rewrite Hns, length_app. cbn [length]. rewrite length_map. lia.
Qed.

Lemma submitManuscript_notifications_witness :
  let r := submitManuscript (Some Scenario.upload) (Some "Traces") (Some "On write logs")
             (Some "logs") (Some "Ann") (Some 1) Scenario.directory in
  adminsAndEditorsOf Scenario.directory = [2; 5]
  ∧ length (notifications (store r)) = 3.
Proof.
  intros r. split; [vm_compute; reflexivity|].
  edestruct (submitManuscript_notifications (Some Scenario.upload) (Some "Traces")
               (Some "On write logs") (Some "logs") (Some "Ann") (Some 1)
               Scenario.directory)
    as (uid & a & b & _ & _ & _ & _ & Hlen).
  - vm_compute. reflexivity.
  - reflexivity.
  - exact Hlen.
Defined.

(** ** The guards at work in the scenario *)

Lemma makeDecision_guards_witness :
  makeDecision 0 (Some "MAYBE") (Some 2) Scenario.secondReview
  = (Fulfilled (failure 400 "Please provide a valid decision (ACCEPTED or REJECTED)"),
     Scenario.secondReview, [])
  ∧ (status <$> manuscripts Scenario.accepted !! 0) = Some ACCEPTED
  ∧ makeDecision 0 (Some "REJECTED") (Some 2) Scenario.accepted
    = (Fulfilled
         (failure 400
            "Manuscript must be in DECISION_READY status before making a decision"),
       Scenario.accepted, []).
Proof.
  split; [|split].
  - apply (makeDecision_guards 0 (Some "MAYBE") (Some 2) Scenario.secondReview).
    intros [H | H]; discriminate H.
  - vm_compute. reflexivity.
  - eapply (proj2 (makeDecision_guards 0 (Some "REJECTED") (Some 2) Scenario.accepted)).
    + vm_compute. reflexivity.
    + discriminate.
    + right. reflexivity.
Defined.

Lemma updateManuscriptStatus_frame_witness :
  let r := updateManuscriptStatus 0 (Some "SUBMITTED") Scenario.accepted in
  (status <$> manuscripts Scenario.accepted !! 0) = Some ACCEPTED
  ∧ (status <$> manuscripts (store r) !! 0) = Some SUBMITTED
  ∧ notifications (store r) = notifications Scenario.accepted
  ∧ reviews (store r) = reviews Scenario.accepted.
Proof.
  intros r. split; [vm_compute; reflexivity|].
  edestruct (λ m, updateManuscriptStatus_frame 0 "SUBMITTED" SUBMITTED m
                    Scenario.accepted)
    as (m' & Hm' & _ & Hst & _ & _ & _ & _ & _ & _ & _ & _ & _ & _ & Hrs & Hns & _).
  - vm_compute. reflexivity.
  - reflexivity.
  - fold r in Hm', Hrs, Hns. split; [|split; [exact Hns|exact Hrs]].
    rewrite Hm'. cbn [fmap option_fmap option_map]. by rewrite Hst.
Defined.

(** * Further properties of the workflow *)

(** ** What a request leaves in place *)

Lemma sameContent_refl (m : IManuscript) : sameContent m m.
Proof. by repeat split. Qed.

Lemma sameContent_trans (m1 m2 m3 : IManuscript) :
  sameContent m1 m2 → sameContent m2 m3 → sameContent m1 m3.
Proof.
  intros (? & ? & ? & ? & ? & ? & ?) (? & ? & ? & ? & ? & ? & ?).
  repeat split; congruence.
Qed.

(** What a call of [updateManuscriptStatus] can do. *)
Lemma updateManuscriptStatus_cases (id : ObjectId) (status' : option string) (s : Store) :
  let r := updateManuscriptStatus id status' s in
  (store r = s ∧ trace r = []
   ∧ ∀ resp, outcome r = Fulfilled resp → success resp = false)
  ∨ (∃ m v st,
       status' = Some st ∧ parseManuscriptStatus st = Some v
       ∧ manuscripts s !! id = Some m
       ∧ users (store r) = users s ∧ reviews (store r) = reviews s
       ∧ notifications (store r) = notifications s
       ∧ manuscripts (store r) = <[id := set_status v m]> (manuscripts s)
       ∧ trace r = [ManuscriptUpdated id v]).
Proof.
  intros r. remember r as r' eqn:Hr. subst r. unfold updateManuscriptStatus in Hr.
  destruct (truthy status'); [|by refused r'].
  destruct status' as [st|]; [|by refused r']. cbn in Hr.
  destruct (parseManuscriptStatus st) as [v|] eqn:Hv; [|by refused r'].
  unfold Manuscript_findByIdAndUpdate in Hr. async_unfold.
  destruct (manuscripts s !! id) as [m|] eqn:Hm; [|by refused r'].
  right. exists m, v, st. subst r'. by repeat apply conj.
Qed.

(** Whatever the request, the users are as before, the notifications and
    the reviews are as before up to documents appended at the end, at most
    one review being appended, from an assigned reviewer who had none for
    that manuscript; every manuscript is still there with the content it
    had. *)
Lemma handle_frame (q : Request) (s : Store) :
  let s' := store (handle q s) in
  users s' = users s
  ∧ (∃ ns, notifications s' = notifications s ++ ns)
  ∧ (reviews s' = reviews s
     ∨ ∃ rv m, reviews s' = reviews s ++ [rv]
               ∧ ¬ reviewed s (manuscriptId rv) (reviewerId rv)
               ∧ manuscripts s !! manuscriptId rv = Some m
               ∧ reviewerId rv ∈ assignedReviewers m)
  ∧ (∀ id m, manuscripts s !! id = Some m →
             ∃ m', manuscripts s' !! id = Some m' ∧ sameContent m m').
Proof.
  assert (Hsame : ∀ (ms : gmap ObjectId IManuscript) id0 m0',
             (∀ m, ms !! id0 = Some m → sameContent m m0') →
             ∀ id m, ms !! id = Some m →
                     ∃ m', <[id0 := m0']> ms !! id = Some m' ∧ sameContent m m').
  { intros ms id0 m0' H0 id m Hm. destruct (decide (id0 = id)) as [->|Hne].
    - rewrite lookup_insert_eq. eauto.
    - rewrite lookup_insert_ne by done. eauto using sameContent_refl. }
  assert (Hkeep : ∀ (ms : gmap ObjectId IManuscript) id m, ms !! id = Some m →
             ∃ m', ms !! id = Some m' ∧ sameContent m m').
  { eauto using sameContent_refl. }
  cbv zeta.
  destruct q as [file t a k au user | id rids user | id st
                | id user rec com str weak sug | id decision user];
    cbn [handle].
  - destruct (submitManuscript_cases file t a k au user s)
      as [(-> & _) | (uid & mid & m & ns & _ & Hfresh & _ & _ & _ & -> & -> & -> & -> & _)].
    { repeat apply conj; [done|by exists []; rewrite app_nil_r|by left|by apply Hkeep]. }
    repeat apply conj; [done|by eauto|by left|].
    apply Hsame. intros m0 Hm0. congruence.
  - destruct (assignReviewers_cases id rids user s)
      as [(-> & _) | (l & m & ns & _ & _ & Hm & _ & _ & -> & -> & -> & -> & _)].
    { repeat apply conj; [done|by exists []; rewrite app_nil_r|by left|by apply Hkeep]. }
    repeat apply conj; [done|by eauto|by left|].
    apply Hsame. intros m0 Hm0. rewrite Hm in Hm0. injection Hm0 as <-.
    by repeat split.
  - destruct (updateManuscriptStatus_cases id st s)
      as [(-> & _) | (m & v & st0 & _ & _ & Hm & -> & -> & -> & -> & _)].
    { repeat apply conj; [done|by exists []; rewrite app_nil_r|by left|by apply Hkeep]. }
    repeat apply conj; [done|by exists []; rewrite app_nil_r|by left|].
    apply Hsame. intros m0 Hm0. rewrite Hm in Hm0. injection Hm0 as <-.
    by repeat split.
  - destruct (submitReview_cases id user rec com str weak sug s)
      as [(-> & _)
         | (uid & m & rv & ns & _ & Hm & Hin & Hnew & Hrv & Hu & -> & -> & -> & Hend)].
    { repeat apply conj; [done|by exists []; rewrite app_nil_r|by left|by apply Hkeep]. }
    repeat apply conj; [done|by eauto| |].
    { right. exists rv, m. rewrite Hrv, Hu. by repeat apply conj. }
    destruct Hend as [(e & _ & -> & _) | (_ & Hesc)]; [by apply Hkeep|].
    unfold escalate in Hesc.
    destruct (_ <=? _); [|destruct (bool_decide _)]; destruct Hesc as (-> & _);
      try by apply Hkeep.
    + apply Hsame. intros m0 Hm0. rewrite Hm in Hm0. injection Hm0 as <-.
      by repeat split.
    + apply Hsame. intros m0 Hm0. rewrite Hm in Hm0. injection Hm0 as <-.
      by repeat split.
  - destruct (makeDecision_cases id decision user s)
      as [(-> & _) | (m & ns & Hm & _ & _ & -> & -> & -> & -> & _)].
    { repeat apply conj; [done|by exists []; rewrite app_nil_r|by left|by apply Hkeep]. }
    repeat apply conj; [done|by eauto|by left|].
    apply Hsame. intros m0 Hm0. rewrite Hm in Hm0. injection Hm0 as <-.
    by repeat split.
Qed.

Lemma reviewCount_mono (s s' : Store) (l : list IReview) (id : ObjectId) :
  reviews s' = reviews s ++ l → reviewCount s id ≤ reviewCount s' id.
Proof.
  intros H. unfold reviewCount. rewrite H, List.filter_app, length_app. lia.
Qed.

(** X1. Serving any sequence of workflow requests leaves the users as
    they were and only appends to the reviews and to the notifications:
    no recorded review or notification is changed or removed. *)
Theorem serve_appends_only (qs : list Request) (s : Store) :
  users (serve qs s) = users s
  ∧ reviews s `prefix_of` reviews (serve qs s)
  ∧ notifications s `prefix_of` notifications (serve qs s).
Proof.
  revert s. induction qs as [|q qs IH]; intros s; cbn [serve]; [done|].
  destruct (IH (store (handle q s))) as (Hu & Hr & Hn).
  destruct (handle_frame q s) as (Hu' & (ns & Hn') & Hr' & _).
  repeat apply conj.
  - congruence.
  - etrans; [|exact Hr]. destruct Hr' as [-> | (rv & m & -> & _)]; [done|].
    by apply prefix_app_r.
  - etrans; [|exact Hn]. rewrite Hn'. by apply prefix_app_r.
Qed.

(** X2. Serving any sequence of workflow requests, the override included,
    never removes a manuscript and never changes its title, abstract,
    keywords, authors, submitter or file: only the status and the assigned
    reviewers of a stored manuscript can change. *)
Theorem serve_keeps_manuscripts (qs : list Request) (s : Store)
    (id : ObjectId) (m : IManuscript) :
  manuscripts s !! id = Some m →
  ∃ m', manuscripts (serve qs s) !! id = Some m' ∧ sameContent m m'.
Proof.
  revert s m. induction qs as [|q qs IH]; intros s m Hm; cbn [serve].
  { eauto using sameContent_refl. }
  destruct (handle_frame q s) as (_ & _ & _ & Hms).
  destruct (Hms id m Hm) as (m1 & Hm1 & Hsame1).
  destruct (IH _ _ Hm1) as (m2 & Hm2 & Hsame2).
  eauto using sameContent_trans.
Qed.

Lemma serve_keeps_manuscripts_witness :
  ∃ m', manuscripts (serve (drop 1 session) Scenario.submitted) !! 0 = Some m'
        ∧ title m' = "Traces".
Proof.
  edestruct (serve_keeps_manuscripts (drop 1 session) Scenario.submitted 0)
    as (m' & Hm' & Ht & _).
  - vm_compute. reflexivity.
  - exists m'. split; [exact Hm'|exact Ht].
Defined.

Lemma uniqueReviews_step (q : Request) (s : Store) :
  uniqueReviews s → uniqueReviews (store (handle q s)).
Proof.
  unfold uniqueReviews. intros Hs.
  destruct (handle_frame q s) as (_ & _ & [-> | (rv & m & -> & Hnew & _)] & _); [done|].
  rewrite map_app. apply NoDup_app. repeat apply conj; [done| |apply NoDup_singleton].
  intros p Hp Hrv. apply list_elem_of_singleton in Hrv as ->.
  apply list_elem_of_fmap in Hp as (r & Heq & Hr). injection Heq as Hm Hu.
  apply Hnew. by exists r.
Qed.

(** X3. If no reviewer has two reviews of one manuscript, this is still
    so after any sequence of workflow requests: [submitReview] looks the
    pair up before it inserts. *)
Theorem serve_unique_reviews (qs : list Request) (s : Store) :
  uniqueReviews s → uniqueReviews (serve qs s).
Proof.
  revert s. induction qs as [|q qs IH]; intros s Hs; cbn [serve]; [done|].
  by apply IH, uniqueReviews_step.
Qed.

Lemma serve_unique_reviews_witness :
  uniqueReviews (serve session Scenario.directory)
  ∧ length (reviews (serve session Scenario.directory)) = 2.
Proof.
  split; [|vm_compute; reflexivity].
  apply (serve_unique_reviews session Scenario.directory).
  unfold uniqueReviews. apply NoDup_nil_2.
Defined.

Lemma reviewsComplete_step (q : Request) (s : Store) :
  isOverride q = false →
  reviewsComplete s → reviewsComplete (store (handle q s)).
Proof.
  unfold reviewsComplete.
  intros Hq Hs id m1 Hm1 Hpast.
  assert (Hnot : ∀ m, ¬ pastReview (status (set_status UNDER_REVIEW m))).
  { intros m [H | [H | H]]; discriminate H. }
  destruct q as [file t a k au user | id0 rids user | id0 st
                | id0 user rec com str weak sug | id0 decision user];
    cbn [handle] in *; [| |done| |].
  - destruct (submitManuscript_cases file t a k au user s)
      as [(Hst & _) | (uid & mid & m & ns & _ & _ & Hsub & _ & _ & _ & Hrs & Hms & _)].
    { rewrite Hst in *. eauto. }
    unfold reviewCount. rewrite Hrs. rewrite Hms in Hm1.
    destruct (decide (mid = id)) as [->|Hne].
    + rewrite lookup_insert_eq in Hm1. injection Hm1 as <-.
      rewrite Hsub in Hpast. destruct Hpast as [H | [H | H]]; discriminate H.
    + rewrite lookup_insert_ne in Hm1 by done. by apply Hs.
  - destruct (assignReviewers_cases id0 rids user s)
      as [(Hst & _) | (l & m & ns & _ & _ & Hm & _ & _ & _ & Hrs & Hms & _)].
    { rewrite Hst in *. eauto. }
    unfold reviewCount. rewrite Hrs. rewrite Hms in Hm1.
    destruct (decide (id0 = id)) as [->|Hne].
    + rewrite lookup_insert_eq in Hm1. injection Hm1 as <-. by apply Hnot in Hpast.
    + rewrite lookup_insert_ne in Hm1 by done. by apply Hs.
  - destruct (submitReview_cases id0 user rec com str weak sug s)
      as [(Hst & _)
         | (uid & m & rv & ns & _ & Hm & _ & _ & Hrv & _ & _ & Hrs & _ & Hend)].
    { rewrite Hst in *. eauto. }
    pose proof (reviewCount_mono s _ [rv] id Hrs) as Hmono.
    destruct Hend as [(e & _ & Hms & _) | (_ & Hesc)].
    { rewrite Hms in Hm1. specialize (Hs id m1 Hm1 Hpast). lia. }
    unfold escalate in Hesc.
    destruct (length (assignedReviewers m) <=? S (reviewCount s id0)) eqn:Hle;
      [|destruct (bool_decide (status m = SUBMITTED))];
      destruct Hesc as (Hms & _); rewrite Hms in Hm1.
    + destruct (decide (id0 = id)) as [->|Hne].
      * rewrite lookup_insert_eq in Hm1. injection Hm1 as <-.
        apply Nat.leb_le in Hle. cbn [assignedReviewers set_status].
        unfold reviewCount at 1. rewrite Hrs, reviewCount_insert by done.
        exact Hle.
      * rewrite lookup_insert_ne in Hm1 by done. specialize (Hs id m1 Hm1 Hpast). lia.
    + destruct (decide (id0 = id)) as [->|Hne].
      * rewrite lookup_insert_eq in Hm1. injection Hm1 as <-. by apply Hnot in Hpast.
      * rewrite lookup_insert_ne in Hm1 by done. specialize (Hs id m1 Hm1 Hpast). lia.
    + specialize (Hs id m1 Hm1 Hpast). lia.
  - destruct (makeDecision_cases id0 decision user s)
      as [(Hst & _) | (m & ns & Hm & Hready & _ & _ & Hrs & Hms & _)].
    { rewrite Hst in *. eauto. }
    unfold reviewCount. rewrite Hrs. rewrite Hms in Hm1.
    destruct (decide (id0 = id)) as [->|Hne].
    + rewrite lookup_insert_eq in Hm1. injection Hm1 as <-.
      cbn [assignedReviewers set_status]. apply (Hs id m Hm). by left.
    + rewrite lookup_insert_ne in Hm1 by done. by apply Hs.
Qed.

(** X4. Without the override, the workflow keeps this invariant: a
    manuscript that is DECISION_READY, ACCEPTED or REJECTED has at least
    as many reviews as it has assigned reviewers. *)
Theorem serve_reviews_complete (qs : list Request) (s : Store) :
  forallb (λ q, negb (isOverride q)) qs = true →
  reviewsComplete s → reviewsComplete (serve qs s).
Proof.
  revert s. induction qs as [|q qs IH]; intros s Hqs Hs; cbn [serve]; [done|].
  cbn [forallb] in Hqs. apply andb_true_iff in Hqs as [Hq Hqs].
  apply IH; [done|]. apply reviewsComplete_step; [|done].
  by apply negb_true_iff.
Qed.

Lemma serve_reviews_complete_witness :
  statusOf (serve session Scenario.directory) 0 = Some ACCEPTED
  ∧ reviewsComplete (serve session Scenario.directory).
Proof.
  split; [vm_compute; reflexivity|].
  apply (serve_reviews_complete session Scenario.directory).
  - reflexivity.
  - intros id m Hm. vm_compute in Hm. discriminate Hm.
Defined.

(** ** Messages and the 500 character limit *)
























(** Replaces the reviews of a closed store by their value. *)
Ltac computed_reviews s :=
  let l := eval vm_compute in (reviews s) in
  replace (reviews s) with l by (vm_compute; reflexivity).


(** ** Review intake, continued *)






(** ** Submission, continued *)




(** ** Decisions, continued *)


(** A valid decision on a DECISION_READY manuscript is saved, whether or
    not the notifications that follow are created. *)
Lemma makeDecision_saves (id : ObjectId) (decision : option string)
    (user : option ObjectId) (s : Store) (m : IManuscript) :
  manuscripts s !! id = Some m →
  status m = DECISION_READY →
  validDecision decision →
  let r := makeDecision id decision user s in
  manuscripts (store r) = <[id := set_status (decided decision) m]> (manuscripts s)
  ∧ users (store r) = users s ∧ reviews (store r) = reviews s.
Proof.
  intros Hm Hst Hd r.
  remember r as r' eqn:Hr. subst r. unfold makeDecision in Hr.
  rewrite validDecision_check in Hr by done.
  unfold Manuscript_findById, populate, User_findById, User_find, Manuscript_save in Hr.
  async_unfold. rewrite Hm in Hr.
  rewrite (bool_decide_eq_true_2 (status m = DECISION_READY)) in Hr by done.
  cbn [negb] in Hr. fold (decided decision) in Hr.
  destruct (users s !! submittedBy m) as [author|]; async_simpl Hr.
  2:{ by subst r'. }
  async_step Hr; [|by subst r'].
  fanout_step Hr; by subst r'.
Qed.



(** X9. The override opens the way to a decision: once
    [updateManuscriptStatus] has set an existing manuscript to
    DECISION_READY, a valid decision is stored whatever the number of
    reviews and of assigned reviewers. *)
Theorem override_then_decision (id : ObjectId) (decision : option string)
    (user : option ObjectId) (s : Store) (m : IManuscript) :
  manuscripts s !! id = Some m →
  validDecision decision →
  let s1 := store (updateManuscriptStatus id (Some "DECISION_READY") s) in
  let r := makeDecision id decision user s1 in
  statusOf (store r) id = Some (decided decision)
  ∧ reviews (store r) = reviews s
  ∧ (assignedReviewers <$> manuscripts (store r) !! id) = Some (assignedReviewers m).
Proof.
  intros Hm Hd s1 r.
  assert (Hs1 : manuscripts s1 = <[id := set_status DECISION_READY m]> (manuscripts s)
                ∧ reviews s1 = reviews s).
  { subst s1. unfold updateManuscriptStatus.
    assert (E : (if truthy (Some "DECISION_READY")
                 then Some "DECISION_READY" ≫= parseManuscriptStatus
                 else None) = Some DECISION_READY) by reflexivity.
    rewrite E. unfold Manuscript_findByIdAndUpdate. async_unfold. by rewrite Hm. }
  destruct Hs1 as [Hms1 Hrs1].
  destruct (makeDecision_saves id decision user s1 (set_status DECISION_READY m))
    as (Hms & _ & Hrs); [by rewrite Hms1, lookup_insert_eq|done|done|].
  fold r in Hms, Hrs. unfold statusOf. rewrite Hms, lookup_insert_eq, Hrs, Hrs1. done.
Qed.

Lemma override_then_decision_witness :
  let s1 := store (updateManuscriptStatus 0 (Some "DECISION_READY") Scenario.submitted) in
  reviewCount Scenario.submitted 0 = 0
  ∧ statusOf (store (makeDecision 0 (Some "ACCEPTED") (Some 2) s1)) 0 = Some ACCEPTED.
Proof.
  intros s1. split; [vm_compute; reflexivity|].
  edestruct (override_then_decision 0 (Some "ACCEPTED") (Some 2) Scenario.submitted)
    as (Hst & _).
  - vm_compute. reflexivity.
  - by left.
  - exact Hst.
Defined.

(** ** Assignment, continued *)

Lemma filter_length_Permutation {A} (f : A → bool) (l l' : list A) :
  l ≡ₚ l' → length (List.filter f l) = length (List.filter f l').
Proof.
  induction 1 as [|x l l' _ IH|x y l|l1 l2 l3 _ IH1 _ IH2]; simpl.
  - done.
  - destruct (f x); simpl; congruence.
  - by destruct (f x), (f y).
  - congruence.
Qed.

Lemma Manuscript_find_elem (query : ObjectId → IManuscript → bool) (s : Store)
    (id : ObjectId) (m : IManuscript) :
  (id, m) ∈ List.filter (λ p : ObjectId * IManuscript, query p.1 p.2)
              (map_to_list (manuscripts s))
  ↔ manuscripts s !! id = Some m ∧ query id m = true.
Proof.
  rewrite list_elem_of_In, filter_In, <- list_elem_of_In, elem_of_map_to_list. done.
Qed.

Lemma Manuscript_find_NoDup (query : ObjectId → IManuscript → bool) (s : Store) :
  NoDup (List.filter (λ p : ObjectId * IManuscript, query p.1 p.2)
           (map_to_list (manuscripts s))).*1.
Proof.
  assert (H : ∀ l : list (ObjectId * IManuscript),
             NoDup l.*1 → NoDup (List.filter (λ p, query p.1 p.2) l).*1).
  { induction l as [|p l IH]; simpl; [done|].
    rewrite NoDup_cons. intros [Hp Hl].
    destruct (query p.1 p.2); simpl; [|by apply IH].
    apply NoDup_cons. split; [|by apply IH].
    intros Hin. apply Hp.
    apply list_elem_of_fmap in Hin as (p' & -> & Hp').
    apply list_elem_of_In, filter_In in Hp' as [Hp' _].
    apply list_elem_of_fmap. exists p'. by rewrite list_elem_of_In. }
  apply H, NoDup_fst_map_to_list.
Qed.

(** Ids that pass the checks of [assignReviewers] are saved, whether or
    not the notifications that follow are created. *)
Lemma assignReviewers_saves (id : ObjectId) (l : list ObjectId)
    (user : option ObjectId) (s : Store) (m : IManuscript) :
  manuscripts s !! id = Some m →
  l ≠ [] → NoDup l → (∀ i, i ∈ l → activeReviewer s i) →
  let r := assignReviewers id (Some l) user s in
  manuscripts (store r) =
    <[id := set_status UNDER_REVIEW (set_assignedReviewers l m)]> (manuscripts s)
  ∧ users (store r) = users s ∧ reviews (store r) = reviews s.
Proof.
  intros Hm Hl Hnd Hall r.
  remember r as r' eqn:Hr. subst r. unfold assignReviewers in Hr.
  destruct l as [|a l']; [done|].
  unfold Manuscript_findById, User_find, Manuscript_save, User_findById in Hr.
  async_unfold. rewrite Hm in Hr.
  assert (Hlen : (length (List.filter
                            (λ p : ObjectId * IUser, isActiveReviewerIn (a :: l') p.1 p.2)
                            (map_to_list (users s))) =? length (a :: l')) = true).
  { by apply Nat.eqb_eq, reviewers_found_all. }
  rewrite Hlen in Hr. cbn [negb] in Hr.
  async_step Hr; [|by subst r'].
  async_step Hr; [|by subst r'].
  rewrite lookup_insert_eq in Hr.
  async_step Hr; [by subst r'|].
  destruct (_.*1); by subst r'.
Qed.

(** X10. Reviewer ids that are not empty, pairwise distinct and all
    active reviewers are stored on an existing manuscript whatever its
    status and its previous reviewers, with status UNDER_REVIEW; the
    recorded reviews are all kept, those of replaced reviewers included,
    so the review count of the manuscript is what it was. *)
Theorem reassignment_keeps_reviews (id : ObjectId) (l : list ObjectId)
    (user : option ObjectId) (s : Store) (m : IManuscript) :
  manuscripts s !! id = Some m →
  l ≠ [] → NoDup l → (∀ i, i ∈ l → activeReviewer s i) →
  let r := assignReviewers id (Some l) user s in
  statusOf (store r) id = Some UNDER_REVIEW
  ∧ (assignedReviewers <$> manuscripts (store r) !! id) = Some l
  ∧ reviews (store r) = reviews s
  ∧ reviewCount (store r) id = reviewCount s id
  ∧ ∀ i, reviewed s id i → reviewed (store r) id i.
Proof.
  intros Hm Hl Hnd Hall r.
  destruct (assignReviewers_saves id l user s m Hm Hl Hnd Hall) as (Hms & _ & Hrs).
  fold r in Hms, Hrs. unfold statusOf, reviewCount, reviewed.
  rewrite Hms, lookup_insert_eq, Hrs. done.
Qed.

Lemma reassignment_keeps_reviews_witness :
  let r := assignReviewers 0 (Some [4]) (Some 2) Scenario.firstReview in
  reviewed Scenario.firstReview 0 3
  ∧ (assignedReviewers <$> manuscripts (store r) !! 0) = Some [4]
  ∧ reviewed (store r) 0 3.
Proof.
  intros r.
  assert (Hrev : reviewed Scenario.firstReview 0 3).
  { unfold reviewed. computed_reviews Scenario.firstReview.
    eexists. split; [apply list_elem_of_here|]. split; reflexivity. }
  split; [exact Hrev|].
  edestruct (reassignment_keeps_reviews 0 [4] (Some 2) Scenario.firstReview)
    as (_ & Has & _ & _ & Hkept).
  - vm_compute. reflexivity.
  - discriminate.
  - apply NoDup_singleton.
  - intros i Hi. apply list_elem_of_singleton in Hi as ->.
    eexists. split; [vm_compute; reflexivity|]. split; reflexivity.
  - split; [exact Has|]. apply Hkept, Hrev.
Defined.

(** X11. After such an assignment the manuscript is in the list
    [getAssignedManuscripts] gives a user exactly when the user is one of
    the supplied ids: the new reviewers see it, a replaced reviewer no
    longer does. *)
Theorem assigned_list_follows_assignment (id : ObjectId) (l : list ObjectId)
    (user : option ObjectId) (s : Store) (m : IManuscript) (i : ObjectId) :
  manuscripts s !! id = Some m →
  l ≠ [] → NoDup l → (∀ j, j ∈ l → activeReviewer s j) →
  let s' := store (assignReviewers id (Some l) user s) in
  ∃ found,
    getAssignedManuscripts (Some i) s' =
      (Fulfilled (answer 200 (Some "Assigned manuscripts retrieved successfully")
                    {| manuscriptCount := length found; listedManuscripts := found |}),
       s', [])
    ∧ NoDup found.*1
    ∧ (id ∈ found.*1 ↔ i ∈ l).
Proof.
  intros Hm Hl Hnd Hall s'.
  destruct (assignReviewers_saves id l user s m Hm Hl Hnd Hall) as (Hms & _).
  fold s' in Hms.
  eexists. split; [reflexivity|]. split; [apply Manuscript_find_NoDup|].
  rewrite list_elem_of_fmap. split.
  - intros ([j m'] & -> & Hin). apply Manuscript_find_elem in Hin as [Hm' Hq].
    cbn [fst] in Hm'. rewrite Hms, lookup_insert_eq in Hm'. injection Hm' as <-.
    by apply bool_decide_eq_true in Hq.
  - intros Hi. exists (id, set_status UNDER_REVIEW (set_assignedReviewers l m)).
    split; [done|]. apply Manuscript_find_elem. split.
    + by rewrite Hms, lookup_insert_eq.
    + by apply bool_decide_eq_true.
Qed.

Lemma assigned_list_follows_assignment_witness :
  let s' := store (assignReviewers 0 (Some [4]) (Some 2) Scenario.firstReview) in
  3 ∈ [3; 4]
  ∧ ∃ found,
      outcome (getAssignedManuscripts (Some 3) s')
      = Fulfilled (answer 200 (Some "Assigned manuscripts retrieved successfully")
                     {| manuscriptCount := length found; listedManuscripts := found |})
      ∧ 0 ∉ found.*1.
Proof.
  intros s'. split; [apply list_elem_of_here|].
  edestruct (assigned_list_follows_assignment 0 [4] (Some 2) Scenario.firstReview)
    as (found & Hget & _ & Hiff).
  - vm_compute. reflexivity.
  - discriminate.
  - apply NoDup_singleton.
  - intros j Hj. apply list_elem_of_singleton in Hj as ->.
    eexists. split; [vm_compute; reflexivity|]. split; reflexivity.
  - exists found. fold s' in Hget. split; [by rewrite Hget|].
    intros Hin. apply Hiff in Hin. apply list_elem_of_singleton in Hin. discriminate Hin.
Defined.

(** ** Submission, continued *)

(** X12. After a successful [submitManuscript] the manuscript can be
    read back under the id the answer carries, an id no manuscript had
    before: it is SUBMITTED, has no reviewer and belongs to the submitter,
    whose [getMyManuscripts] count has grown by one. *)
Theorem submitted_manuscript_is_listed (file : option UploadedFile)
    (title' abstract' keywords' authors' : option string)
    (user : option ObjectId) (s : Store) (resp : Response) :
  let r := submitManuscript file title' abstract' keywords' authors' user s in
  outcome r = Fulfilled resp →
  success resp = true →
  ∃ uid mid m,
    user = Some uid
    ∧ data resp = ManuscriptData mid (Some m)
    ∧ manuscripts s !! mid = None
    ∧ getManuscriptById mid (store r) = (Fulfilled (answer 200 None m), store r, [])
    ∧ status m = SUBMITTED ∧ assignedReviewers m = [] ∧ submittedBy m = uid
    ∧ ∃ before after,
        getMyManuscripts (Some uid) s =
          (Fulfilled (answer 200 (Some "Manuscripts retrieved successfully")
                        {| manuscriptCount := length before;
                           listedManuscripts := before |}), s, [])
        ∧ getMyManuscripts (Some uid) (store r) =
            (Fulfilled (answer 200 (Some "Manuscripts retrieved successfully")
                          {| manuscriptCount := length after;
                             listedManuscripts := after |}), store r, [])
        ∧ length after = S (length before)
        ∧ mid ∈ after.*1.
Proof.
  intros r Hout Hok.
  remember r as r' eqn:Hr. subst r. unfold submitManuscript in Hr.
  destruct file as [file|]; [|subst r'; injection Hout as <-; discriminate Hok].
  destruct (negb (truthy title') || _ || _ || _);
    [subst r'; injection Hout as <-; discriminate Hok|].
  destruct user as [uid|]; [|subst r'; injection Hout as <-; discriminate Hok].
  unfold Manuscript_create, User_findById, User_find in Hr.
  async_unfold. cbn [title abstract keywords authors fileName] in Hr.
  repeat match type of Hr with
         | context [if String.length ?x =? 0 then _ else _] =>
             destruct (String.length x =? 0); [by subst r'|]
         end.
  async_simpl Hr.
  assert (Hfresh : manuscripts s !! fresh (dom (manuscripts s)) = None).
  { apply not_elem_of_dom, is_fresh. }
  async_step Hr; [|by subst r'].
  fanout_step Hr; [|by subst r'].
  subst r'. injection Hout as <-. cbn [fst snd data succeeded].
  eexists uid, (fresh (dom (manuscripts s))), _.
  repeat apply conj; [done|reflexivity|done| |done|done|done|].
  { unfold getManuscriptById, Manuscript_findById. async_unfold. store_fields.
    by rewrite lookup_insert_eq. }
  eexists _, _. repeat apply conj; [reflexivity|reflexivity| |].
  - store_fields.
    rewrite (filter_length_Permutation _ _ _ (map_to_list_insert _ _ _ Hfresh)).
    cbn [List.filter fst snd]. unfold isSubmittedBy at 1. cbn [submittedBy].
    by rewrite bool_decide_eq_true_2.
  - store_fields. apply list_elem_of_fmap. eexists (_, _). split; [reflexivity|].
    apply list_elem_of_In, filter_In. split.
    + apply list_elem_of_In, elem_of_map_to_list, lookup_insert_eq.
    + by apply bool_decide_eq_true.
Qed.

Lemma submitted_manuscript_is_listed_witness :
  let r := submitManuscript (Some Scenario.upload) (Some "  Traces ") (Some "On write logs")
             (Some "logs") (Some "Ann") (Some 1) Scenario.directory in
  ∃ m, getManuscriptById 0 (store r) = (Fulfilled (answer 200 None m), store r, [])
       ∧ status m = SUBMITTED.
Proof.
  intros r.
  edestruct (submitted_manuscript_is_listed (Some Scenario.upload) (Some "  Traces ")
               (Some "On write logs") (Some "logs") (Some "Ann") (Some 1)
               Scenario.directory)
    as (uid & mid & m & _ & Hdata & _ & Hget & Hst & _).
  - vm_compute. reflexivity.
  - reflexivity.
  - cbn in Hdata. injection Hdata as <- _. exists m. split; [exact Hget|exact Hst].
Defined.

(** ** Statistics *)

Lemma status_partition (l : list (ObjectId * IManuscript)) :
  length l =
    length (List.filter (hasStatus ACCEPTED) l)
    + length (List.filter (hasStatus REJECTED) l)
    + length (List.filter (hasStatus UNDER_REVIEW) l)
    + length (List.filter (λ m, hasStatus SUBMITTED m || hasStatus DECISION_READY m) l).
Proof.
  induction l as [|[i m] l IH]; [done|].
  cbn [List.filter length]. unfold hasStatus in *. cbn [snd].
  destruct (status m); simpl; lia.
Qed.

(** X13. The four figures [getAuthorStats] derives from the statuses
    always add up to the number of submissions: every manuscript of the
    author is counted in exactly one of accepted, rejected, under review
    and pending, DECISION_READY counting as pending. *)
Theorem getAuthorStats_partition (uid : ObjectId) (s : Store) :
  ∃ st,
    getAuthorStats (Some uid) s =
      (Fulfilled (answer 200 (Some "Author statistics retrieved successfully") st), s, [])
    ∧ totalSubmissions st
      = acceptedWorks st + rejectedWorks st + underReview st + pending st
    ∧ (∀ id m, manuscripts s !! id = Some m → submittedBy m = uid →
               status m = DECISION_READY → 0 < pending st).
Proof.
  eexists. split; [reflexivity|]. cbn [totalSubmissions acceptedWorks rejectedWorks
                                       underReview pending].
  split; [apply status_partition|].
  intros id m Hm Hu Hst.
  assert (Hin : (id, m) ∈ List.filter
                  (λ p, hasStatus SUBMITTED p || hasStatus DECISION_READY p)
                  (List.filter (λ p : ObjectId * IManuscript, isSubmittedBy uid p.1 p.2)
                     (map_to_list (manuscripts s)))).
  { apply list_elem_of_In, filter_In. split.
    - apply list_elem_of_In, Manuscript_find_elem. split; [done|].
      by apply bool_decide_eq_true.
    - unfold hasStatus. cbn [snd]. rewrite Hst. apply orb_true_r. }
  destruct (List.filter _ _); [by apply not_elem_of_nil in Hin|]. cbn [length]. lia.
Qed.

Lemma getAuthorStats_partition_witness :
  ∃ st,
    getAuthorStats (Some 1) Scenario.secondReview =
      (Fulfilled (answer 200 (Some "Author statistics retrieved successfully") st),
       Scenario.secondReview, [])
    ∧ 0 < pending st.
Proof.
  destruct (getAuthorStats_partition 1 Scenario.secondReview) as (st & Hget & _ & Hp).
  exists st. split; [exact Hget|].
  eapply (Hp 0).
  - vm_compute. reflexivity.
  - reflexivity.
  - reflexivity.
Defined.

Lemma reviewer_reviews_bound (uid : ObjectId) (s : Store) :
  uniqueReviews s →
  (∀ r, r ∈ reviews s → reviewerId r = uid →
        ∃ m, manuscripts s !! manuscriptId r = Some m ∧ uid ∈ assignedReviewers m) →
  length (List.filter (byReviewer uid) (reviews s))
  ≤ length (List.filter (λ p : ObjectId * IManuscript, isAssignedTo uid p.1 p.2)
              (map_to_list (manuscripts s))).
Proof.
  intros Huniq Hall.
  set (mine := List.filter (byReviewer uid) (reviews s)).
  set (found := List.filter _ (map_to_list _)).
  rewrite <- (length_fmap manuscriptId mine), <- (length_fmap fst found).
  apply submseteq_length, NoDup_submseteq.
  - unfold uniqueReviews in Huniq. subst mine. clear Hall found.
    induction (reviews s) as [|r l IH]; [constructor|].
    cbn [map] in Huniq. apply NoDup_cons in Huniq as [Hr Hl].
    cbn [List.filter]. destruct (byReviewer uid r) eqn:Hby; [|by apply IH].
    cbn [fmap list_fmap]. apply NoDup_cons. split; [|by apply IH].
    intros Hin. apply Hr.
    apply list_elem_of_fmap in Hin as (r' & Heq & Hr').
    apply list_elem_of_In, filter_In in Hr' as [Hr' Hby'].
    apply bool_decide_eq_true in Hby, Hby'.
    apply list_elem_of_fmap. exists r'. split; [|by apply list_elem_of_In].
    congruence.
  - intros id Hid. apply list_elem_of_fmap in Hid as (r & -> & Hr).
    apply list_elem_of_In, filter_In in Hr as [Hr Hby].
    apply bool_decide_eq_true in Hby.
    destruct (Hall r) as (m & Hm & Hin); [by apply list_elem_of_In|done|].
    apply list_elem_of_fmap. exists (manuscriptId r, m). split; [done|].
    apply Manuscript_find_elem. split; [done|]. by apply bool_decide_eq_true.
Qed.

(** X14. [pendingReviews] is the number of manuscripts assigned to the
    reviewer minus the number of reviews the reviewer has written, as an
    integer.  It is not negative when no reviewer has two reviews of one
    manuscript and every review of this reviewer is for a manuscript still
    assigned to them; it is negative for a reviewer who has a review on
    record and is assigned to no manuscript, as after a reassignment. *)
Theorem getReviewerStats_pending (uid : ObjectId) (s : Store) :
  ∃ st,
    getReviewerStats (Some uid) s =
      (Fulfilled (answer 200 (Some "Reviewer statistics retrieved successfully") st),
       s, [])
    ∧ pendingReviews st
      = (Z.of_nat (totalAssigned st) - Z.of_nat (completedReviews st))%Z
    ∧ (uniqueReviews s →
       (∀ r, r ∈ reviews s → reviewerId r = uid →
             ∃ m, manuscripts s !! manuscriptId r = Some m ∧ uid ∈ assignedReviewers m) →
       (0 ≤ pendingReviews st)%Z)
    ∧ ((∃ id, reviewed s id uid) →
       (∀ id m, manuscripts s !! id = Some m → uid ∉ assignedReviewers m) →
       (pendingReviews st < 0)%Z).
Proof.
  eexists. split; [reflexivity|].
  cbn [pendingReviews totalAssigned completedReviews]. split; [done|]. split.
  - intros Huniq Hall. pose proof (reviewer_reviews_bound uid s Huniq Hall). lia.
  - intros (id & r & Hr & _ & Hu) Hnone.
    assert (Hmine : r ∈ List.filter (byReviewer uid) (reviews s)).
    { apply list_elem_of_In, filter_In. split; [by apply list_elem_of_In|].
      by apply bool_decide_eq_true. }
    assert (Hfound : List.filter (λ p : ObjectId * IManuscript, isAssignedTo uid p.1 p.2)
                       (map_to_list (manuscripts s)) = []).
    { destruct (List.filter _ (map_to_list _)) as [|[j m] l] eqn:Hl; [done|].
      assert (Hjm : (j, m) ∈ (j, m) :: l) by apply list_elem_of_here.
      rewrite <- Hl in Hjm. apply Manuscript_find_elem in Hjm as [Hm Hq].
      apply bool_decide_eq_true in Hq. by destruct (Hnone j m Hm). }
    rewrite Hfound. destruct (List.filter _ (reviews s));
      [by apply not_elem_of_nil in Hmine|]. cbn [length]. lia.
Qed.

Lemma getReviewerStats_pending_witness :
  ∃ st,
    getReviewerStats (Some 3) Scenario.reassigned =
      (Fulfilled (answer 200 (Some "Reviewer statistics retrieved successfully") st),
       Scenario.reassigned, [])
    ∧ (pendingReviews st < 0)%Z.
Proof.
  destruct (getReviewerStats_pending 3 Scenario.reassigned) as (st & Hget & _ & _ & Hneg).
  exists st. split; [exact Hget|]. apply Hneg.
  - exists 0. unfold reviewed. computed_reviews Scenario.reassigned.
    eexists. split; [apply list_elem_of_here|]. split; reflexivity.
  - intros id m Hm.
    assert (Hall : map_Forall (λ _ m, 3 ∉ assignedReviewers m)
                     (manuscripts Scenario.reassigned)).
    { apply map_Forall_to_list. vm_compute. repeat constructor.
      intros Hin. apply list_elem_of_singleton in Hin. discriminate Hin. }
    exact (Hall id m Hm).
Defined.

(** ** The notification dispatcher, continued *)





Lemma markAll_other (uid other : ObjectId) (b : bool) (ns : list INotification) :
  other ≠ uid →
  List.filter (notificationQuery other b)
    (map (λ n, if isUnreadOf uid n then markRead n else n) ns)
  = List.filter (notificationQuery other b) ns.
Proof.
  intros Hne. induction ns as [|n ns IH]; [done|]. cbn [map List.filter]. rewrite IH.
  unfold isUnreadOf. destruct (bool_decide (userId n = uid)) eqn:Hu; [|done].
  apply bool_decide_eq_true in Hu. destruct (isRead n) eqn:Hr; cbn [negb andb]; [done|].
  unfold notificationQuery, ofUser, markRead. cbn [userId isRead].
  by rewrite !bool_decide_eq_false_2 by congruence.
Qed.

Lemma markAll_queries (uid : ObjectId) (n : INotification) :
  let n' := if isUnreadOf uid n then markRead n else n in
  notificationQuery uid false n' = notificationQuery uid false n
  ∧ notificationQuery uid true n' = false
  ∧ (notificationQuery uid false n' = true → isRead n' = true).
Proof.
  unfold isUnreadOf, notificationQuery, ofUser, markRead.
  destruct (bool_decide (userId n = uid)) eqn:Hu, (isRead n) eqn:Hr;
    cbn [negb andb userId isRead]; rewrite ?Hu, ?Hr; by repeat split.
Qed.

Lemma markAll_mine (uid : ObjectId) (ns : list INotification) :
  let marked := map (λ n, if isUnreadOf uid n then markRead n else n) ns in
  length (List.filter (notificationQuery uid false) marked)
  = length (List.filter (notificationQuery uid false) ns)
  ∧ List.filter (notificationQuery uid true) marked = []
  ∧ Forall (λ n, isRead n = true) (List.filter (notificationQuery uid false) marked).
Proof.
  cbv zeta. induction ns as [|n ns (IH1 & IH2 & IH3)]; [by repeat split|].
  cbn [map List.filter].
  destruct (markAll_queries uid n) as (H1 & H2 & H3). cbv zeta in H1, H2, H3.
  rewrite H1 in *. rewrite H2.
  destruct (notificationQuery uid false n); cbn [length];
    repeat split; try done; [by f_equal|].
  constructor; [by apply H3|done].
Qed.

(** X16. After [markAllAsRead] the user's unread count is zero and the
    total is what it was, every notification of the user being read; the
    answers [getNotifications] gives any other user are unchanged. *)
Theorem markAllAsRead_then_list (uid : ObjectId) (limit' skip' : option nat) (s : Store) :
  let s' := store (markAllAsRead uid s) in
  (∃ page page',
     getNotifications uid limit' skip' None s = (Fulfilled (answer 200 None page), s, [])
     ∧ getNotifications uid limit' skip' None s'
       = (Fulfilled (answer 200 None page'), s', [])
     ∧ unreadCount page' = 0
     ∧ total page' = total page
     ∧ Forall (λ n, isRead n = true) (listed page'))
  ∧ (∀ other unreadOnly',
       other ≠ uid →
       outcome (getNotifications other limit' skip' unreadOnly' s')
       = outcome (getNotifications other limit' skip' unreadOnly' s)).
Proof.
  intros s'. subst s'. unfold markAllAsRead, Notification_updateMany. async_unfold.
  destruct (markAll_mine uid (notifications s)) as (Htotal & Hunread & Hread).
  split.
  - eexists _, _. split; [reflexivity|]. split; [reflexivity|].
    cbn [listed total unreadCount notifications with_notifications].
    rewrite bool_decide_eq_false_2 by done.
    rewrite Hunread. repeat apply conj; [done|exact Htotal|].
    by apply Forall_take, Forall_drop, Forall_reverse.
  - intros other unreadOnly' Hne.
    unfold getNotifications, Notification_find, Notification_countDocuments.
    async_unfold. cbn [notifications with_notifications].
    by rewrite !markAll_other.
Qed.

Lemma deleteMany_other (uid other : ObjectId) (b : bool) (ns : list INotification) :
  other ≠ uid →
  List.filter (notificationQuery other b) (List.filter (λ n, negb (ofUser uid n)) ns)
  = List.filter (notificationQuery other b) ns.
Proof.
  intros Hne. induction ns as [|n ns IH]; [done|]. cbn [List.filter].
  unfold ofUser at 1. destruct (bool_decide (userId n = uid)) eqn:Hu; cbn [negb].
  - apply bool_decide_eq_true in Hu. rewrite IH.
    unfold notificationQuery at 2, ofUser. by rewrite bool_decide_eq_false_2 by congruence.
  - cbn [List.filter]. by rewrite IH.
Qed.

Lemma deleteMany_mine (uid : ObjectId) (b : bool) (ns : list INotification) :
  List.filter (notificationQuery uid b) (List.filter (λ n, negb (ofUser uid n)) ns) = [].
Proof.
  induction ns as [|n ns IH]; [done|]. cbn [List.filter].
  destruct (ofUser uid n) eqn:Hu; cbn [negb]; [done|].
  cbn [List.filter]. unfold notificationQuery at 1. by rewrite Hu.
Qed.

(** X17. [deleteAllNotifications] always answers 200 with the number of
    notifications the user had; it removes exactly those and keeps the
    others in order.  Afterwards the user's list is empty with total and
    unread count zero, the answers given to other users are unchanged,
    and a second call deletes nothing. *)
Theorem deleteAllNotifications_scope (uid : ObjectId) (limit' skip' : option nat)
    (unreadOnly' : option string) (s : Store) :
  let res := deleteAllNotifications uid s in
  res.1 = answer 200 (Some "All notifications deleted successfully")
            (length (List.filter (ofUser uid) (notifications s)))
  ∧ notifications res.2 = List.filter (λ n, negb (ofUser uid n)) (notifications s)
  ∧ users res.2 = users s ∧ manuscripts res.2 = manuscripts s ∧ reviews res.2 = reviews s
  ∧ getNotifications uid limit' skip' unreadOnly' res.2
    = (Fulfilled (answer 200 None {| listed := []; total := 0; unreadCount := 0 |}),
       res.2, [])
  ∧ (∀ other, other ≠ uid →
       outcome (getNotifications other limit' skip' unreadOnly' res.2)
       = outcome (getNotifications other limit' skip' unreadOnly' s))
  ∧ deleteAllNotifications uid res.2
    = (answer 200 (Some "All notifications deleted successfully") 0, res.2).
Proof.
  intros res. subst res. unfold deleteAllNotifications, Notification_deleteMany.
  cbn [fst snd users manuscripts reviews notifications with_notifications].
  repeat apply conj; try done.
  - unfold getNotifications, Notification_find, Notification_countDocuments.
    async_unfold. cbn [notifications with_notifications].
    rewrite !deleteMany_mine. rewrite reverse_nil, drop_nil, take_nil. done.
  - intros other Hne.
    unfold getNotifications, Notification_find, Notification_countDocuments.
    async_unfold. cbn [notifications with_notifications].
    by rewrite !deleteMany_other.
  - assert (Hnone : ∀ ns, List.filter (ofUser uid)
                            (List.filter (λ n, negb (ofUser uid n)) ns) = []).
    { induction ns as [|n ns IH]; [done|]. cbn [List.filter].
      destruct (ofUser uid n) eqn:Hu; cbn [negb List.filter]; [done|]. by rewrite Hu. }
    assert (Hsame : ∀ ns, List.filter (λ n, negb (ofUser uid n))
                            (List.filter (λ n, negb (ofUser uid n)) ns)
                          = List.filter (λ n, negb (ofUser uid n)) ns).
    { induction ns as [|n ns IH]; [done|]. cbn [List.filter].
      destruct (ofUser uid n) eqn:Hu; cbn [negb List.filter]; [done|].
      by rewrite Hu, IH. }
    rewrite Hnone, Hsame. done.
Qed.

Lemma markAllAsRead_then_list_witness :
  2 ≠ 1
  ∧ outcome (getNotifications 2 None None None (store (markAllAsRead 1 Scenario.accepted)))
    = outcome (getNotifications 2 None None None Scenario.accepted).
Proof.
  split; [discriminate|].
  apply (markAllAsRead_then_list 1 None None Scenario.accepted). discriminate.
Defined.

Lemma deleteAllNotifications_scope_witness :
  2 ≠ 1
  ∧ outcome (getNotifications 2 None None None
               (deleteAllNotifications 1 Scenario.accepted).2)
    = outcome (getNotifications 2 None None None Scenario.accepted).
Proof.
  split; [discriminate|].
  apply (deleteAllNotifications_scope 1 None None None Scenario.accepted). discriminate.
Defined.




(** ** The user directory, continued *)

Lemma countUsers_all (s : Store) : countUsers (λ _, true) s = size (users s).
Proof.
  unfold countUsers. rewrite <- length_map_to_list.
  induction (map_to_list (users s)) as [|p l IH]; simpl; congruence.
Qed.

Lemma countUsers_le (query : IUser → bool) (s : Store) :
  countUsers query s ≤ size (users s).
Proof.
  unfold countUsers. rewrite <- length_map_to_list.
  induction (map_to_list (users s)) as [|p l IH]; simpl; [done|].
  destruct (query p.2); simpl; lia.
Qed.

Lemma countUsers_roles (s : Store) :
  countUsers (λ u, bool_decide (role u = ADMIN)) s
  + countUsers (λ u, bool_decide (role u = AUTHOR)) s
  + countUsers (λ u, bool_decide (role u = REVIEWER)) s
  + countUsers (λ u, bool_decide (role u = EDITOR)) s
  = size (users s).
Proof.
  unfold countUsers. rewrite <- length_map_to_list.
  induction (map_to_list (users s)) as [|[i u] l IH]; simpl; [done|].
  destruct (role u); simpl; lia.
Qed.

Lemma countUsers_pos (query : IUser → bool) (s : Store) :
  countUsers query s ≠ 0 ↔ ∃ i u, users s !! i = Some u ∧ query u = true.
Proof.
  unfold countUsers. split.
  - intros Hn.
    destruct (List.filter _ _) as [|[i u] l] eqn:Hf; [done|].
    assert (Hin : In (i, u) (List.filter (λ p : ObjectId * IUser, query p.2)
                               (map_to_list (users s)))).
    { rewrite Hf. by left. }
    apply filter_In in Hin as [Hin Hq].
    exists i, u. split; [|done]. by apply elem_of_map_to_list, list_elem_of_In.
  - intros (i & u & Hu & Hq) Hn.
    apply length_zero_iff_nil in Hn.
    assert (Hin : In (i, u) (List.filter (λ p : ObjectId * IUser, query p.2)
                               (map_to_list (users s)))).
    { apply filter_In. split; [|done]. by apply list_elem_of_In, elem_of_map_to_list. }
    by rewrite Hn in Hin.
Qed.

Lemma User_aggregateByRole_elem (s : Store) (r : UserRole) (n : nat) :
  (r, n) ∈ User_aggregateByRole s
  ↔ n = countUsers (λ u, bool_decide (role u = r)) s ∧ n ≠ 0.
Proof.
  unfold User_aggregateByRole.
  rewrite list_elem_of_In, filter_In, in_map_iff. cbn [snd].
  rewrite negb_true_iff, Nat.eqb_neq. split.
  - intros [(r' & Heq & _) Hn]. by injection Heq as -> <-.
  - intros [-> Hn]. split; [|done]. exists r. split; [done|].
    destruct r; simpl; tauto.
Qed.

(** X19. [getUserStats] always answers 200 and writes nothing.  The
    total is the number of users, the active users are at most as many,
    and the groups of [usersByRole] partition the users: every role is
    listed at most once, exactly the roles that some user has are
    listed, and the counts add up to the total. *)
Theorem getUserStats_totals (s : Store) :
  ∃ stats,
    getUserStats s
    = (Fulfilled (answer 200 (Some "User statistics retrieved successfully") stats),
       s, [])
    ∧ totalUsers stats = size (users s)
    ∧ activeUsers stats ≤ totalUsers stats
    ∧ NoDup (usersByRole stats).*1
    ∧ sum_list (usersByRole stats).*2 = totalUsers stats
    ∧ ∀ r, (∃ n, (r, n) ∈ usersByRole stats)
           ↔ ∃ i u, users s !! i = Some u ∧ role u = r.
Proof.
  eexists. split; [reflexivity|]. cbn [totalUsers activeUsers usersByRole].
  rewrite countUsers_all. repeat apply conj.
  - done.
  - apply countUsers_le.
  - unfold User_aggregateByRole. cbn [map List.filter snd].
    repeat match goal with
           | |- context [negb (?n =? 0)] => destruct (n =? 0); cbn [negb]
           end;
      cbn [fmap list_fmap fst];
      apply (bool_decide_unpack _); reflexivity.
  - rewrite <- (countUsers_roles s).
    unfold User_aggregateByRole. cbn [map List.filter snd].
    repeat match goal with
           | |- context [negb (?n =? 0)] =>
               destruct (Nat.eqb_spec n 0); cbn [negb]
           end;
      cbn [fmap list_fmap snd sum_list sum_list_with]; unfold id; lia.
  - intros r. split.
    + intros (n & Hn). apply User_aggregateByRole_elem in Hn as [-> Hn].
      apply countUsers_pos in Hn as (i & u & Hu & Hr).
      apply bool_decide_eq_true in Hr. eauto.
    + intros (i & u & Hu & Hr). eexists.
      apply User_aggregateByRole_elem. split; [reflexivity|].
      apply countUsers_pos. exists i, u. split; [done|].
      by apply bool_decide_eq_true.
Qed.

Lemma byFullname_total : Total byFullname.
Proof. intros p q. unfold byFullname. apply String.le_total. Qed.

Lemma byFullname_trans : Transitive byFullname.
Proof. intros p q r. unfold byFullname. apply transitivity. Qed.

Lemma isActiveReviewer_spec (s : Store) (i : ObjectId) :
  (∃ u, users s !! i = Some u ∧ isActiveReviewer i u = true) ↔ activeReviewer s i.
Proof.
  unfold activeReviewer, isActiveReviewer.
  split; intros (u & Hu & H); exists u; (split; [done|]).
  - apply andb_true_iff in H as [Hr Ha]. by apply bool_decide_eq_true in Hr.
  - destruct H as [Hr Ha]. apply andb_true_iff. by rewrite bool_decide_eq_true.
Qed.

(** X20. [getReviewers] always answers 200 and writes nothing.  The
    list holds exactly the active reviewers, each once, in the order of
    their names, and [count] is its length.  Any selection from the list
    that is not empty and names nobody twice passes the check of
    [assignReviewers] on an existing manuscript: the selection is stored
    and the manuscript is UNDER_REVIEW. *)
Theorem getReviewers_listing (s : Store) :
  ∃ found,
    getReviewers s
    = (Fulfilled (answer 200 (Some "Reviewers retrieved successfully")
                    {| reviewerCount := length found; listedReviewers := found |}),
       s, [])
    ∧ StronglySorted byFullname found
    ∧ NoDup found.*1
    ∧ (∀ i u, (i, u) ∈ found
              ↔ users s !! i = Some u ∧ role u = REVIEWER ∧ isActive u = true)
    ∧ ∀ id m user selection,
        manuscripts s !! id = Some m →
        selection ≠ [] → NoDup selection → selection ⊆ found.*1 →
        manuscripts (store (assignReviewers id (Some selection) user s)) !! id
        = Some (set_status UNDER_REVIEW (set_assignedReviewers selection m)).
Proof.
  unfold getReviewers, User_find. async_unfold.
  set (found := List.filter _ _).
  assert (Hperm : merge_sort byFullname found ≡ₚ found)
    by apply merge_sort_Permutation.
  eexists. split; [reflexivity|]. repeat apply conj.
  - apply StronglySorted_merge_sort;
      [apply byFullname_trans|apply byFullname_total].
  - rewrite Hperm. apply (User_find_NoDup isActiveReviewer s).
  - intros i u. rewrite Hperm. unfold found.
    rewrite list_elem_of_In, filter_In, <- list_elem_of_In, elem_of_map_to_list.
    unfold isActiveReviewer. cbn [fst snd].
    rewrite andb_true_iff, bool_decide_eq_true. done.
  - intros id m user selection Hm Hne Hnd Hsub.
    destruct (assignReviewers_saves id selection user s m Hm Hne Hnd) as (Hsaved & _).
    { intros i Hi. apply Hsub in Hi. rewrite Hperm in Hi.
      apply (User_find_elem isActiveReviewer s) in Hi.
      by apply isActiveReviewer_spec. }
    unfold store in Hsaved. rewrite Hsaved. apply lookup_insert_eq.
Qed.

Lemma getReviewers_listing_witness :
  ∃ found m,
    outcome (getReviewers Scenario.submitted)
    = Fulfilled (answer 200 (Some "Reviewers retrieved successfully")
                   {| reviewerCount := length found; listedReviewers := found |})
    ∧ manuscripts Scenario.submitted !! 0 = Some m
    ∧ manuscripts (store (assignReviewers 0 (Some [4]) (Some 2) Scenario.submitted)) !! 0
      = Some (set_status UNDER_REVIEW (set_assignedReviewers [4] m)).
Proof.
  destruct (getReviewers_listing Scenario.submitted)
    as (found & Hget & _ & _ & Hel & Hassign).
  assert (Hm : ∃ m, manuscripts Scenario.submitted !! 0 = Some m).
  { eexists. vm_compute. reflexivity. }
  destruct Hm as [m Hm].
  exists found, m. split; [by rewrite Hget|]. split; [exact Hm|].
  apply Hassign.
  - exact Hm.
  - discriminate.
  - apply NoDup_singleton.
  - intros i Hi. apply list_elem_of_singleton in Hi as ->.
    apply list_elem_of_fmap. exists (4, Scenario.member "Ria" REVIEWER).
    split; [reflexivity|]. apply Hel. vm_compute. auto.
Defined.



(** ** Review listing *)

Lemma escalate_assigned (m m' : IManuscript) (n : nat) :
  escalate m n = Some m' → assignedReviewers m' = assignedReviewers m.
Proof.
  unfold escalate. destruct (_ <=? _); [|destruct (bool_decide _)];
    intros H; by simplify_eq.
Qed.

(** X22. Whenever [submitReview] writes anything, the manuscript's review
    list grows by exactly the new review, which comes first, is the
    reviewer's own and belongs to the manuscript; the total goes up by
    one and the number of assigned reviewers stays.  This holds as well
    when the call rejects after the review is stored. *)
Theorem recorded_review_is_listed (id : ObjectId) (user : option ObjectId)
    (rec com str weak sug : option string) (s : Store) :
  let r := submitReview id user rec com str weak sug s in
  trace r ≠ [] →
  ∃ before rv n,
    getManuscriptReviews id s
    = (Fulfilled (answer 200 (Some "Reviews fetched successfully")
                    {| listedReviews := before; totalReviews := length before;
                       assignedCount := n |}),
       s, [])
    ∧ getManuscriptReviews id (store r)
      = (Fulfilled (answer 200 (Some "Reviews fetched successfully")
                      {| listedReviews := rv :: before;
                         totalReviews := S (length before);
                         assignedCount := n |}),
         store r, [])
    ∧ user = Some (reviewerId rv)
    ∧ manuscriptId rv = id.
Proof.
  intros r Htrace.
  destruct (submitReview_cases id user rec com str weak sug s)
    as [(_ & Hnil & _)|(uid & m & rv & ns & -> & Hm & _ & _ & Hrv & Hby & _ & Hreviews
                        & _ & Hrest)];
    [done|].
  fold r in Hreviews, Hrest.
  assert (Hm' : ∃ m', manuscripts (store r) !! id = Some m'
                      ∧ assignedReviewers m' = assignedReviewers m).
  { destruct Hrest as [(e & _ & Hms & _)|(_ & Hrest)].
    - exists m. by rewrite Hms.
    - destruct (escalate m (S (reviewCount s id))) as [m'|] eqn:He.
      + destruct Hrest as (Hms & _). exists m'. rewrite Hms, lookup_insert_eq.
        split; [done|]. by apply escalate_assigned in He.
      + destruct Hrest as (Hms & _). exists m. by rewrite Hms. }
  destruct Hm' as (m' & Hm' & Hsame).
  exists (reverse (List.filter (forManuscript id) (reviews s))), rv,
    (length (assignedReviewers m)).
  unfold getManuscriptReviews, Manuscript_findById, Review_find. async_unfold.
  rewrite Hm. fold r. rewrite Hm', Hsame, Hreviews.
  rewrite List.filter_app. cbn [List.filter].
  assert (Hfor : forManuscript id rv = true) by by apply bool_decide_eq_true.
  rewrite Hfor, reverse_app, reverse_singleton. cbn [app length].
  subst uid. done.
Qed.

Lemma recorded_review_is_listed_witness :
  ∃ before rv page,
    outcome (getManuscriptReviews 0 Scenario.firstReview)
    = Fulfilled (answer 200 (Some "Reviews fetched successfully") page)
    ∧ listedReviews page = rv :: before
    ∧ reviewerId rv = 3 ∧ manuscriptId rv = 0.
Proof.
  destruct (recorded_review_is_listed 0 (Some 3) (Some "ACCEPT") (Some "Sound")
              None None None Scenario.assigned)
    as (before & rv & n & _ & Hafter & Hby & Hfor).
  { vm_compute. discriminate. }
  exists before, rv. eexists. split.
  - unfold Scenario.firstReview. rewrite Hafter. reflexivity.
  - split; [reflexivity|]. split; [by injection Hby|exact Hfor].
Defined.
